(** * AiiDA: entity loaders, the Materials Project importer, COD clause
      checks, the archive command line, the Sphinx directive and the
      neb.x restart script

    A shallow embedding of
    - [aiida/orm/utils/__init__.py]  ([load_entity], [load_code], ...,
      [load_workflow]),
    - [aiida/tools/dbimporters/plugins/matp.py]  ([MatProjImporter],
      [MatProjSearchResults] and the entry classes),
    - [aiida/sphinxext/base.py]  ([format_valid_types],
      [build_port_paragraph], [build_portnamespace_doctree]),
    - [examples/submission/quantumespresso/test_neb_restart.py],
    - the expectations of [aiida/djsite/db/subtests/dbimporters.py] and
      [tests/cmdline/commands/test_archive_export.py], and the helper
      [delete_temporary_file] of the latter,
    with the properties of each stated and proved below the definitions. *)

From Stdlib Require Import ZArith String List Bool Ascii Lia.
From stdpp Require Import base option list strings pretty gmap sorting.

Local Set Warnings "-register-all".
Local Open Scope string_scope.
Local Open Scope list_scope.

(** * Part I: definitions *)

(** ** Python values, exceptions and results *)

(** The values the modelled functions receive.  A float is the finite
    double [m * 2^e]; a [uuid.UUID] instance is carried by its canonical
    text (what [str()] returns for it); [VUnicode] is Python 2's [unicode],
    which [six.string_types] covers together with [str]. *)
Inductive pyval : Type :=
| VNone
| VBool (b : bool)
| VInt (n : Z)
| VFloat (m e : Z)
| VStr (s : string)
| VUnicode (s : string)
| VUUID (s : string)
| VList (l : list pyval)
| VDict (d : list (string * pyval)).

Inductive exc_class : Type :=
| ValueError
| TypeError
| KeyError
| AttributeError
| RuntimeError
| SystemExit
| IndexError
| UnicodeEncodeError.

(** An exception: its class and its message (for a [KeyError], the key). *)
Record exc : Type := Exc { exc_type : exc_class; exc_msg : string }.

Inductive result (A : Type) : Type :=
| Return (a : A)
| Raise (e : exc).
Arguments Return {A} a.
Arguments Raise {A} e.

Definition exc_class_eqb (a b : exc_class) : bool :=
  match a, b with
  | ValueError, ValueError | TypeError, TypeError | KeyError, KeyError
  | AttributeError, AttributeError | RuntimeError, RuntimeError
  | SystemExit, SystemExit | IndexError, IndexError
  | UnicodeEncodeError, UnicodeEncodeError => true
  | _, _ => false
  end.

(** [issubclass(a, b)] on these classes: [UnicodeEncodeError] is the one
    with a base among them, [ValueError]. *)
Definition issubclass_exc (a b : exc_class) : bool :=
  exc_class_eqb a b
  || match a, b with
     | UnicodeEncodeError, ValueError => true
     | _, _ => false
     end.

(** [try: body  except cls: handler] *)
Definition try_except {A : Type} (body : result A) (cls : exc_class)
    (handler : result A) : result A :=
  match body with
  | Return a => Return a
  | Raise e => if issubclass_exc (exc_type e) cls then handler else Raise e
  end.

(** [d[key]] on a dictionary with string keys *)
Definition subscript {V : Type} (d : gmap string V) (key : string) : result V :=
  match d !! key with
  | Some v => Return v
  | None => Raise (Exc KeyError key)
  end.

(** [v is None], [v is not None] *)
Definition is_None (v : pyval) : bool :=
  match v with VNone => true | _ => false end.

Definition is_not_None (v : pyval) : bool := negb (is_None v).

(** [isinstance(v, int)]: [bool] is a subclass of [int]. *)
Definition isinstance_int (v : pyval) : bool :=
  match v with VInt _ | VBool _ => true | _ => false end.

(** [isinstance(v, six.string_types)] *)
Definition isinstance_string_types (v : pyval) : bool :=
  match v with VStr _ | VUnicode _ => true | _ => false end.

(** [isinstance(v, uuid.UUID)] *)
Definition isinstance_UUID (v : pyval) : bool :=
  match v with VUUID _ => true | _ => false end.

(** [isinstance(v, dict)] *)
Definition isinstance_dict (v : pyval) : bool :=
  match v with VDict _ => true | _ => false end.

(** Truth value of an object in a boolean context. *)
Definition truthy (v : pyval) : bool :=
  match v with
  | VNone => false
  | VBool b => b
  | VInt n => negb (Z.eqb n 0)
  | VFloat m _ => negb (Z.eqb m 0)
  | VStr s | VUnicode s => negb (String.eqb s EmptyString)
  | VUUID _ => true
  | VList l => match l with [] => false | _ => true end
  | VDict d => match d with [] => false | _ => true end
  end.

(** [v == s] for a string literal [s] *)
Definition eq_str (v : pyval) (s : string) : bool :=
  match v with
  | VStr s' | VUnicode s' => String.eqb s' s
  | _ => false
  end.

(** [l.count(True)] on a list of booleans *)
Fixpoint count_True (l : list bool) : nat :=
  match l with
  | [] => 0
  | b :: l' => (if b then 1 else 0) + count_True l'
  end.

(** What the interpreter supplies and is not computed here: [str()] of a
    float or of a container (float formatting, [repr] of the elements) and
    the text of [type(v)]. *)
Class Builtins : Type := {
  str_other : pyval -> string;
  type_str : pyval -> string
}.

(** The builtin [str()]. *)
Definition py_str `{Builtins} (v : pyval) : string :=
  match v with
  | VNone => "None"
  | VBool true => "True"
  | VBool false => "False"
  | VInt n => pretty n
  | VStr s | VUnicode s | VUUID s => s
  | VFloat _ _ | VList _ | VDict _ => str_other v
  end.

(** ** [aiida/orm/utils/__init__.py] *)

(** [aiida.orm.utils.loaders.IdentifierType] *)
Inductive IdentifierType : Type := ID | UUID | LABEL.

(** The arguments of one call of [entity_loader.load_entity]. *)
Record loader_call : Type := LoaderCall {
  lc_identifier : pyval;
  lc_identifier_type : option IdentifierType;
  lc_sub_classes : pyval;
  lc_query_with_dashes : pyval
}.

(** A class passed as [entity_loader]: whether it is a sub class of
    [OrmEntityLoader], and its class method [load_entity]; both live in
    [aiida.orm.utils.loaders]. *)
Record loader_class (entity : Type) : Type := LoaderClass {
  issubclass_OrmEntityLoader : bool;
  cls_load_entity : loader_call -> result entity
}.
Arguments LoaderClass {entity} _ _.
Arguments issubclass_OrmEntityLoader {entity} _.
Arguments cls_load_entity {entity} _ _.

(** What [aiida.orm.utils.loaders] exports to this module. *)
Class Loaders (entity : Type) : Type := {
  OrmEntityLoader_type : string;  (* the text of [type(OrmEntityLoader)] *)
  CodeEntityLoader : loader_class entity;
  ComputerEntityLoader : loader_class entity;
  GroupEntityLoader : loader_class entity;
  NodeEntityLoader : loader_class entity
}.

(** A run of a loader function: the backend calls it made, in order, and
    how it ended. *)
Definition run (call entity : Type) : Type := (list call * result entity)%type.

Definition fail {call entity : Type} (e : exc) : run call entity := ([], Raise e).

Section LoadEntity.

Context {entity : Type} `{Builtins} `{Loaders entity}.

Definition call_backend (cls : loader_class entity) (c : loader_call)
    : run loader_call entity :=
  ([c], cls_load_entity cls c).

Definition load_entity (entity_loader : option (loader_class entity))
    (identifier pk uuid label sub_classes query_with_dashes : pyval)
    : run loader_call entity :=
  match entity_loader with
  | None =>
      fail (Exc TypeError
              ("entity_loader should be a sub class of " ++ OrmEntityLoader_type))
  | Some cls =>
      if negb (issubclass_OrmEntityLoader cls) then
        fail (Exc TypeError
                ("entity_loader should be a sub class of " ++ OrmEntityLoader_type))
      else
        let inputs_provided :=
          count_True (map is_not_None [identifier; pk; uuid; label]) in
        if Nat.eqb inputs_provided 0 then
          fail (Exc ValueError
            "one of the parameters 'identifier', pk', 'uuid' or 'label' has to be specified")
        else if Nat.ltb 1 inputs_provided then
          fail (Exc ValueError
            "only one of parameters 'identifier', pk', 'uuid' or 'label' has to be specified")
        else
          let chosen : result (pyval * option IdentifierType) :=
            if is_not_None pk then
              if negb (isinstance_int pk) then
                Raise (Exc TypeError "a pk has to be an integer")
              else Return (pk, Some ID)
            else if is_not_None uuid then
              if negb (isinstance_string_types uuid) then
                Raise (Exc TypeError "uuid has to be a string type")
              else Return (uuid, Some UUID)
            else if is_not_None label then
              if negb (isinstance_string_types label) then
                Raise (Exc TypeError "label has to be a string type")
              else Return (label, Some LABEL)
            else Return (VStr (py_str identifier), None) in
          match chosen with
          | Raise e => fail e
          | Return (identifier', identifier_type) =>
              call_backend cls
                (LoaderCall identifier' identifier_type sub_classes query_with_dashes)
          end
  end.

Definition load_code (identifier pk uuid label sub_classes query_with_dashes : pyval)
    : run loader_call entity :=
  load_entity (Some CodeEntityLoader) identifier pk uuid label
    sub_classes query_with_dashes.

Definition load_computer (identifier pk uuid label sub_classes query_with_dashes : pyval)
    : run loader_call entity :=
  load_entity (Some ComputerEntityLoader) identifier pk uuid label
    sub_classes query_with_dashes.

Definition load_group (identifier pk uuid label sub_classes query_with_dashes : pyval)
    : run loader_call entity :=
  load_entity (Some GroupEntityLoader) identifier pk uuid label
    sub_classes query_with_dashes.

Definition load_node (identifier pk uuid label sub_classes query_with_dashes : pyval)
    : run loader_call entity :=
  load_entity (Some NodeEntityLoader) identifier pk uuid label
    sub_classes query_with_dashes.

End LoadEntity.

(** The two class methods of [aiida.orm.implementation.Workflow] that
    [load_workflow] ends in. *)
Class WorkflowClass (workflow : Type) : Type := {
  get_subclass_from_pk : pyval -> result workflow;
  get_subclass_from_uuid : pyval -> result workflow
}.

Inductive workflow_call : Type :=
| Call_get_subclass_from_pk (pk : pyval)
| Call_get_subclass_from_uuid (uuid : pyval).

Section LoadWorkflow.

Context {workflow : Type} `{Builtins} `{WorkflowClass workflow}.

Definition call_from_pk (pk : pyval) : run workflow_call workflow :=
  ([Call_get_subclass_from_pk pk], get_subclass_from_pk pk).

Definition call_from_uuid (uuid : pyval) : run workflow_call workflow :=
  ([Call_get_subclass_from_uuid uuid], get_subclass_from_uuid uuid).

Definition load_workflow (wf_id pk uuid : pyval) : run workflow_call workflow :=
  let nones :=
    Nat.b2n (is_None wf_id) + Nat.b2n (is_None pk) + Nat.b2n (is_None uuid) in
  if Nat.eqb nones 3 then
    fail (Exc ValueError
            "one of the parameters 'wf_id', 'pk' and 'uuid' has to be supplied")
  else if Nat.ltb nones 2 then
    fail (Exc ValueError
            "only one of parameters 'wf_id', 'pk' and 'uuid' has to be supplied")
  else if is_not_None wf_id then
    let wf_id :=
      if truthy wf_id && isinstance_UUID wf_id then VStr (py_str wf_id)
      else wf_id in
    if isinstance_string_types wf_id then call_from_uuid wf_id
    else if isinstance_int wf_id then call_from_pk wf_id
    else
      fail (Exc ValueError
              ("'wf_id' has to be either string, unicode, integer or UUID instance, "
               ++ type_str wf_id ++ " given"))
  else if is_not_None pk then
    if isinstance_int pk then call_from_pk pk
    else fail (Exc ValueError "'pk' has to be an integer")
  else
    let uuid :=
      if truthy uuid && isinstance_UUID uuid then VStr (py_str uuid)
      else uuid in
    if isinstance_string_types uuid then call_from_uuid uuid
    else
      fail (Exc ValueError "'uuid' has to be a string, unicode or a UUID instance").

End LoadWorkflow.

(** ** [aiida/tools/dbimporters/plugins/matp.py] *)

#[export] Instance result_ret : MRet result := @Return.
#[export] Instance result_bind : MBind result :=
  fun A B k r => match r with Return a => k a | Raise e => Raise e end.

(** The two remote services the importer talks to:
    [requests.get('https://www.materialsproject.org/rest/v1/api_check',
    headers={'X-API-KEY': key}).json()], and [MPRester.query(criteria,
    properties)]. *)
Class MaterialsProject : Type := {
  api_check : pyval -> result (gmap string pyval);
  mpr_query : pyval -> list string -> result (list pyval)
}.

(** The instance attributes of a [MatProjImporter]; [None] is an attribute
    that has not been assigned yet. *)
Record MatProjImporter : Type := { _api_key : option pyval }.

(** The class attribute [MatProjImporter._collection]. *)
Definition _collection : pyval := VStr "structures".

Inductive entry_class : Type := MatProjEntry | MatProjCifEntry.

Record MatProjSearchResults : Type := {
  sr_results : list pyval;
  sr_return_class : entry_class
}.

Section MatProj.

Context `{Builtins} `{MaterialsProject}.

Definition _verify_api_key (self : MatProjImporter) : result unit :=
  key ← match _api_key self with
        | Some v => Return v
        | None => Raise (Exc AttributeError
                    "'MatProjImporter' object has no attribute '_api_key'")
        end;
  response_content ← api_check key;
  if bool_decide (is_Some (response_content !! "error")) then
    err ← subscript response_content "error";
    Raise (Exc RuntimeError (py_str err))
  else
    valid_response ← subscript response_content "valid_response";
    if negb (truthy valid_response) then
      Raise (Exc RuntimeError
        "Materials Project did not give a valid response for the API key check.")
    else
      api_key_valid ← subscript response_content "api_key_valid";
      if negb (truthy api_key_valid) then
        Raise (Exc RuntimeError "Your API key for Materials Project is not valid.")
      else Return tt.

(** [setup_db(self, **kwargs)], with [os.environ] and the object before the
    call as inputs and the object after the call as an output. *)
Definition setup_db (environ : gmap string string) (kwargs : gmap string pyval)
    (self : MatProjImporter) : MatProjImporter * result unit :=
  match subscript kwargs "api_key" with
  | Raise e => (self, Raise e)
  | Return api_key =>
      let '(self, r) :=
        if is_None api_key then
          match
            try_except (subscript environ "PMG_MAPI_KEY") KeyError
              (Raise (Exc ValueError
                 ("API key not supplied and PMG_MAPI_KEY environment "
                  ++ "variable not set. Either pass it when initializing the class, "
                  ++ "or set the environment variable PMG_MAPI_KEY to your API key.")))
          with
          | Return k => ({| _api_key := Some (VStr k) |}, Return tt)
          | Raise e => (self, Raise e)
          end
        else (self, Return tt) in
      match r with
      | Raise e => (self, Raise e)
      | Return _ =>
          let self := {| _api_key := Some api_key |} in
          (self, _verify_api_key self)
      end
  end.

Definition find (query : pyval) (collection : list string) : result (list pyval) :=
  mpr_query query collection.

Definition query (self : MatProjImporter) (kwargs : gmap string pyval)
    : result MatProjSearchResults :=
  query ← try_except (subscript kwargs "query") AttributeError
            (Raise (Exc AttributeError
               ("Make sure the supplied dictionary has `query` as a key. This "
                ++ "should containg a dictionary with the right query needed.")));
  collection ← try_except (subscript kwargs "collection") AttributeError
            (Raise (Exc AttributeError
               "Make sure the supplied dictionary has `collection` as a key."));
  if negb (isinstance_dict query) then
    Raise (Exc TypeError "The query argument should be a dictionary")
  else
    let collection := if is_None collection then _collection else collection in
    if eq_str collection "structure" then
      results ← find query ["structure"; "material_id"; "cif"];
      Return {| sr_results := results; sr_return_class := MatProjCifEntry |}
    else
      Raise (Exc ValueError ("Unsupported collection: " ++ py_str collection)).

End MatProj.

(** ** The COD query-clause builders

    [aiida/tools/dbimporters/plugins/cod.py] is not among the sources at hand;
    [TestCodDbImporter.test_datatype_checks] is. *)

(** [s.strip()] *)
Fixpoint lstrip (s : string) : string :=
  match s with
  | String a s' => if Ascii.is_space a then lstrip s' else s
  | EmptyString => EmptyString
  end.

Definition strip (s : string) : string :=
  String.rev (lstrip (String.rev (lstrip s))).

(** The value of a run of decimal digits, most significant first. *)
Fixpoint digits_value (acc : Z) (s : string) : option Z :=
  match s with
  | EmptyString => Some acc
  | String a s' =>
      match Ascii.is_nat a with
      | Some d => digits_value (10 * acc + Z.of_nat d) s'
      | None => None
      end
  end.

(** The integer a text denotes for [int()]: blanks around it, an optional
    sign, at least one decimal digit. *)
Definition int_literal (s : string) : option Z :=
  match strip s with
  | EmptyString => None
  | String "-" (String _ _ as ds) => Z.opp <$> digits_value 0 ds
  | String "+" (String _ _ as ds) => digits_value 0 ds
  | ds => digits_value 0 ds
  end.

(** [repr()] of a text of ASCII characters.  The text goes between single
    quotes, or between double quotes when it holds a single quote and no
    double one; the quote in use and the backslash get a backslash in front,
    tab, line feed and carriage return are written [\t], [\n], [\r], and
    every other character below the space or from DEL on as [\x] and two
    hexadecimal digits. *)
Definition hex_digit (n : nat) : ascii :=
  default "0"%char (String.get n "0123456789abcdef").

Definition repr_char (quote c : ascii) : string :=
  if Ascii.eqb c quote || Ascii.eqb c "\"
  then String "\" (String c EmptyString)
  else if Ascii.eqb c "009" then "\t"
  else if Ascii.eqb c "010" then "\n"
  else if Ascii.eqb c "013" then "\r"
  else
    let n := nat_of_ascii c in
    if Nat.ltb n 32 || Nat.leb 127 n
    then String "\" (String "x"
           (String (hex_digit (n / 16)) (String (hex_digit (n mod 16)) EmptyString)))
    else String c EmptyString.

Definition repr_quote (s : string) : ascii :=
  if existsb (Ascii.eqb "'") (list_ascii_of_string s)
     && negb (existsb (Ascii.eqb "034") (list_ascii_of_string s))
  then "034"%char else "'"%char.

Definition repr_str (s : string) : string :=
  String (repr_quote s)
    (String.concat EmptyString
       (map (repr_char (repr_quote s)) (list_ascii_of_string s))
     ++ String (repr_quote s) EmptyString).

(** The texts for which the message of a failed [int()] is computed here:
    ASCII characters and no NUL, no blank in front, and a [repr()] of at
    most 200 characters.  For the others the quoted text is not the plain
    [repr()] (blanks in front are dropped from it, it is cut at 200
    characters, a NUL ends it, and this differs between versions of the
    interpreter). *)
Definition quotable (s : string) : bool :=
  forallb (fun c => Nat.ltb 0 (nat_of_ascii c) && Nat.ltb (nat_of_ascii c) 128)
    (list_ascii_of_string s)
  && match s with
     | String c _ => negb (Ascii.is_space c)
     | EmptyString => true
     end
  && Nat.leb (String.length (repr_str s)) 200.

(** The unicode texts that [int()] reads as it reads the [str] of the same
    characters: ASCII without NUL and without the separators FS, GS, RS and
    US, which are blanks for a unicode and not for a [str]. *)
Definition ascii_unicode (s : string) : bool :=
  forallb (fun c => let n := nat_of_ascii c in
                    Nat.ltb 0 n && Nat.ltb n 128 && negb (Nat.leb 28 n && Nat.leb n 31))
    (list_ascii_of_string s).

(** What [int()] gives for a unicode text outside [ascii_unicode]. *)
Inductive int_reading : Type :=
| IntValue (n : Z)
| IntValueError (message : string)
| IntUnicodeEncodeError (message : string).

(** What the interpreter supplies and is not computed here: the message of a
    failed [int()] for a text that is not [quotable], and [int()] of a
    unicode text outside [ascii_unicode] (the Unicode database says which
    characters are digits and blanks there). *)
Class IntBuiltin : Type := {
  int_message : pyval -> string;
  int_unicode : string -> int_reading
}.

(** [int()] of a finite float: towards zero. *)
Definition float_int (m e : Z) : Z :=
  if (0 <=? e)%Z then (m * 2 ^ e)%Z else Z.quot m (2 ^ (- e)).

(** [UUID.__int__]: the number the hexadecimal digits of the UUID denote. *)
Definition hex_value (c : ascii) : option Z :=
  match Ascii.is_nat c with
  | Some d => Some (Z.of_nat d)
  | None =>
      let n := nat_of_ascii c in
      if Nat.leb 97 n && Nat.leb n 102 then Some (Z.of_nat (n - 87))
      else if Nat.leb 65 n && Nat.leb n 70 then Some (Z.of_nat (n - 55))
      else None
  end.

Definition uuid_int (s : string) : Z :=
  fold_left (fun acc c => match hex_value c with
                          | Some d => (16 * acc + d)%Z
                          | None => acc
                          end)
    (list_ascii_of_string s) 0%Z.

Section Cod.

Context `{IntBuiltin}.

(** The message of [int()] for a text it cannot read.  A unicode is turned
    into a [str] first, with a space for each of its blanks, so that its
    text is quoted here only when it has no tab or line break. *)
Definition invalid_literal (v : pyval) : string :=
  match v with
  | VStr s =>
      if quotable s
      then ("invalid literal for int() with base 10: " ++ repr_str s)%string
      else int_message v
  | VUnicode s =>
      if quotable s
         && forallb (fun c => negb (Ascii.is_space c) || Ascii.eqb c " ")
              (list_ascii_of_string s)
      then ("invalid literal for int() with base 10: " ++ repr_str s)%string
      else int_message v
  | _ => int_message v
  end.

(** The builtin [int()] of Python 2.7, the interpreter of the test and of
    the script that call it ([e.message], [print >>]). *)
Definition py_int (v : pyval) : result Z :=
  match v with
  | VInt n => Return n
  | VBool b => Return (Z.b2z b)
  | VFloat m e => Return (float_int m e)
  | VUUID s => Return (uuid_int s)
  | VStr s =>
      match int_literal s with
      | Some n => Return n
      | None => Raise (Exc ValueError (invalid_literal v))
      end
  | VUnicode s =>
      if ascii_unicode s then
        match int_literal s with
        | Some n => Return n
        | None => Raise (Exc ValueError (invalid_literal v))
        end
      else
        match int_unicode s with
        | IntValue n => Return n
        | IntValueError message => Raise (Exc ValueError message)
        | IntUnicodeEncodeError message => Raise (Exc UnicodeEncodeError message)
        end
  | VNone =>
      Raise (Exc TypeError
               "int() argument must be a string or a number, not 'NoneType'")
  | VList _ =>
      Raise (Exc TypeError
               "int() argument must be a string or a number, not 'list'")
  | VDict _ =>
      Raise (Exc TypeError
               "int() argument must be a string or a number, not 'dict'")
  end.

(** [isinstance(v, str)] on Python 2, where [unicode] is another type. *)
Definition isinstance_str (v : pyval) : bool :=
  match v with VStr _ => true | _ => false end.

Definition isinstance_float (v : pyval) : bool :=
  match v with VFloat _ _ => true | _ => false end.

(** Modelled from the spec: the type check every [CodDbImporter._*_clause]
    method of [plugins/cod.py] starts with.  The spec gives the shape of the
    message ("incorrect value for keyword ... -- only ... are accepted") and
    that each clause kind has its own accepted types; a value of any other
    type in [values] is a [ValueError]. *)
Definition check_types (accepted : pyval -> bool) (alias only : string)
    (values : list pyval) : result unit :=
  if forallb accepted values then Return tt
  else
    Raise (Exc ValueError
             ("incorrect value for keyword '" ++ alias ++ "' -- only "
              ++ only ++ " are accepted")).

(** Modelled from the spec: [CodDbImporter._int_clause] of [plugins/cod.py],
    as far as its exceptions go (the SQL text it returns is not modelled):
    integers and strings are accepted, and every value is then converted
    with [int()]. *)
Definition _int_clause (key alias : string) (values : list pyval) : result unit :=
  _ ← check_types (fun e => isinstance_int e || isinstance_string_types e)
        alias "integers and strings" values;
  _ ← mapM py_int values;
  Return tt.

(** Modelled from the spec: [CodDbImporter._str_exact_clause] of
    [plugins/cod.py], as far as its exceptions go. *)
Definition _str_exact_clause (key alias : string) (values : list pyval) : result unit :=
  check_types (fun e => isinstance_int e || isinstance_string_types e)
    alias "integers and strings" values.

(** Modelled from the spec: [CodDbImporter._formula_clause] of
    [plugins/cod.py], as far as its exceptions go. *)
Definition _formula_clause (key alias : string) (values : list pyval) : result unit :=
  check_types isinstance_str alias "strings" values.

(** Modelled from the spec: [CodDbImporter._str_fuzzy_clause] of
    [plugins/cod.py], as far as its exceptions go. *)
Definition _str_fuzzy_clause (key alias : string) (values : list pyval) : result unit :=
  check_types (fun e => isinstance_int e || isinstance_string_types e)
    alias "integers and strings" values.

(** Modelled from the spec: [CodDbImporter._composition_clause] of
    [plugins/cod.py], as far as its exceptions go. *)
Definition _composition_clause (key alias : string) (values : list pyval) : result unit :=
  check_types isinstance_string_types alias "strings" values.

(** Modelled from the spec: [CodDbImporter._volume_clause] of
    [plugins/cod.py], as far as its exceptions go. *)
Definition _volume_clause (key alias : string) (values : list pyval) : result unit :=
  check_types (fun e => isinstance_int e || isinstance_float e)
    alias "integers and floats" values.

(** The six clause kinds and, for each, the types its message names. *)
Inductive clause_kind : Type :=
| IntClause | StrExactClause | FormulaClause
| StrFuzzyClause | CompositionClause | VolumeClause.

Definition clause_method (k : clause_kind)
    : string -> string -> list pyval -> result unit :=
  match k with
  | IntClause => _int_clause
  | StrExactClause => _str_exact_clause
  | FormulaClause => _formula_clause
  | StrFuzzyClause => _str_fuzzy_clause
  | CompositionClause => _composition_clause
  | VolumeClause => _volume_clause
  end.

Definition accepted_type (k : clause_kind) (v : pyval) : bool :=
  match k with
  | IntClause | StrExactClause | StrFuzzyClause =>
      isinstance_int v || isinstance_string_types v
  | FormulaClause => isinstance_str v
  | CompositionClause => isinstance_string_types v
  | VolumeClause => isinstance_int v || isinstance_float v
  end.

Definition accepted_names (k : clause_kind) : string :=
  match k with
  | IntClause | StrExactClause | StrFuzzyClause => "integers and strings"
  | FormulaClause | CompositionClause => "strings"
  | VolumeClause => "integers and floats"
  end.

(** *** [TestCodDbImporter.test_datatype_checks] *)

Definition test_messages : list string :=
  [ EmptyString;
    ("incorrect value for keyword 'test' -- " ++ "only integers and strings are accepted")%string;
    ("incorrect value for keyword 'test' -- " ++ "only strings are accepted")%string;
    ("incorrect value for keyword 'test' -- " ++ "only integers and floats are accepted")%string;
    "invalid literal for int() with base 10: 'text'" ].

(** [1.0 / 3] is the double [6004799503160661 * 2^-54]. *)
Definition test_values : list pyval :=
  [ VInt 10; VStr "text"; VUnicode "text"; VStr "10";
    VFloat 6004799503160661 (-54); VList [VInt 1; VInt 2; VInt 3] ].

Definition test_methods : list (string -> string -> list pyval -> result unit) :=
  [ _int_clause; _str_exact_clause; _formula_clause;
    _str_fuzzy_clause; _composition_clause; _volume_clause ].

Definition test_results : list (list nat) :=
  [ [ 0; 4; 4; 0; 1; 1 ];
    [ 0; 0; 0; 0; 1; 1 ];
    [ 2; 0; 2; 0; 2; 2 ];
    [ 0; 0; 0; 0; 1; 1 ];
    [ 2; 0; 0; 0; 2; 2 ];
    [ 0; 3; 3; 3; 0; 3 ] ].

(** What [message] holds after the [try ... except ValueError as e] block;
    [None] when another exception escapes the block. *)
Definition caught_message {A : Type} (r : result A) : option string :=
  match r with
  | Return _ => Some EmptyString
  | Raise e => if issubclass_exc (exc_type e) ValueError then Some (exc_msg e) else None
  end.

(** One [assertEquals] of the test, for method [i] and value [j]. *)
Definition datatype_check (i j : nat) : bool :=
  match test_methods !! i, test_values !! j,
        match test_results !! i with
        | Some row =>
            match row !! j with
            | Some r => test_messages !! r
            | None => None
            end
        | None => None
        end with
  | Some method, Some value, Some expected =>
      match caught_message (method "test" "test" [value]) with
      | Some message => String.eqb message expected
      | None => false
      end
  | _, _, _ => false
  end.

(** The test passes when every assertion of its two loops holds. *)
Definition test_datatype_checks : bool :=
  forallb (fun i => forallb (fun j => datatype_check i j)
                      (seq 0 (length test_values)))
          (seq 0 (length test_methods)).

End Cod.

(** An interpreter for the examples. *)
Definition sample_int_builtin : IntBuiltin :=
  {| int_message := fun _ => "invalid literal for int()";
     int_unicode := fun _ => IntUnicodeEncodeError EmptyString |}.

(** ** The archive command line

    [aiida/cmdline/commands/cmd_archive.py] and the migration functions are
    not among the sources at hand; [tests/cmdline/commands/test_archive_export.py]
    is.  Schema versions are written [0.n]; a version is carried by its
    number [n]. *)

Inductive archive_format : Type := zip | zip_uncompressed | tar_gz.

(** Modelled from the spec: what the archive schema of
    [aiida.tools.importexport] supplies, which is not among the sources at hand:
    the data an archive holds, the number of the current [EXPORT_VERSION],
    the migration that takes the data of version [0.n] to version
    [0.(n+1)], and the text [inspect] prints for the data ([true] for
    [--data], [false] for [--meta-data] and the summary). *)
Class ArchiveSchema : Type := {
  payload : Type;
  EXPORT_VERSION : nat;
  migration : nat -> payload -> payload;
  show_payload : bool -> payload -> string
}.

Definition version_string (n : nat) : string := "0." ++ pretty n.

Section Archive.

Context `{ArchiveSchema}.

(** Modelled from the spec: the JSON content of an archive ("JSON metadata
    (including an export_version field) plus serialized node/entity data"). *)
Record archive : Type := { export_version : nat; data : payload }.

(** Modelled from the spec: a file on disk ("a zip or tar.gz container
    holding JSON metadata ... plus serialized node/entity data"): a
    well-formed container that holds an archive, or anything else (an empty
    file, for one). *)
Inductive file : Type :=
| ArchiveFile (container : archive_format) (a : archive)
| OtherFile (content : list ascii).

(** [zipfile.ZipFile(f).testzip() is None], [tarfile.is_tarfile(f)] *)
Definition valid_zip (f : file) : bool :=
  match f with
  | ArchiveFile zip _ | ArchiveFile zip_uncompressed _ => true
  | _ => false
  end.

Definition is_tarfile (f : file) : bool :=
  match f with
  | ArchiveFile tar_gz _ => true
  | _ => false
  end.

(** What [ReaderJsonZip(f).metadata.export_version] reads. *)
Definition metadata_export_version (f : file) : option nat :=
  match f with
  | ArchiveFile _ a => Some (export_version a)
  | OtherFile _ => None
  end.

(** What [CliRunner.invoke] hands back. *)
Record cli_result : Type := {
  exception : option exc;
  exit_code : Z;
  output : string
}.

Definition cli_success (out : string) : cli_result :=
  {| exception := None; exit_code := 0; output := out |}.

(** Modelled from the spec: [echo.echo_critical(msg)] of
    [aiida.cmdline.utils.echo] ("CLI failures surface as non-zero exit codes
    with human-readable messages"): print the message and leave with
    status 1. *)
Definition echo_critical (msg : string) : cli_result :=
  {| exception := Some (Exc SystemExit "1"); exit_code := 1;
     output := "Critical: " ++ msg |}.

(** A path argument that names no file is refused by the option parser. *)
Definition usage_error (msg : string) : cli_result :=
  {| exception := Some (Exc SystemExit "2"); exit_code := 2;
     output := "Error: " ++ msg |}.

(** Modelled from the spec: the chain of schema migrations behind
    [verdi archive migrate] ("schema versions are monotonically numbered
    (e.g., 0.1 -> EXPORT_VERSION) and migration is expected to be chainable
    across versions"): from [current], apply the migration of each version
    in turn until [target] is reached; there is no migration out of a
    version below [0.1] or out of the current [EXPORT_VERSION], and
    [steps] bounds the length of the chain. *)
Fixpoint migrate_chain (steps current target : nat) (d : payload) : option payload :=
  if Nat.eqb current target then Some d
  else
    match steps with
    | 0 => None
    | S steps' =>
        if Nat.leb 1 current && Nat.ltb current EXPORT_VERSION then
          migrate_chain steps' (S current) target (migration current d)
        else None
    end.

Record migrate_options : Type := {
  input_file : string;
  output_file : option string;
  in_place : bool;                   (* -i / --in-place *)
  force : bool;                      (* -f / --force *)
  version : option nat;              (* -v / --version *)
  archive_format_option : archive_format   (* -F / --archive-format, zip by default *)
}.

(** Modelled from the spec: [verdi archive migrate] of [cmd_archive.py]
    ("version-migrates an on-disk JSON+zip schema", "produces a valid
    zip/tar.gz whose metadata export_version equals the requested target
    version"), with the option handling that the tests exercise:
    an output file together with [--in-place], or neither, is refused; an
    existing output file is overwritten only with [--force]; without
    [--version] the target is the current [EXPORT_VERSION]. *)
Definition migrate (o : migrate_options) (fs : gmap string file)
    : gmap string file * cli_result :=
  match in_place o, output_file o with
  | true, Some _ =>
      (fs, echo_critical "output file specified together with --in-place flag")
  | false, None =>
      (fs, echo_critical
             ("no output file specified. Please add --in-place flag if you "
              ++ "would like to migrate in place."))
  | in_place, output =>
      let target_file := default (input_file o) output in
      if negb in_place && negb (force o)
         && bool_decide (is_Some (fs !! target_file)) then
        (fs, echo_critical "the output file already exists")
      else
        match fs !! input_file o with
        | None => (fs, usage_error "the input file does not exist")
        | Some (OtherFile _) =>
            (fs, echo_critical "corrupt archive: the input file cannot be read")
        | Some (ArchiveFile _ a) =>
            let target := default EXPORT_VERSION (version o) in
            match migrate_chain EXPORT_VERSION (export_version a) target (data a) with
            | None =>
                (fs, echo_critical "failed to migrate the archive file")
            | Some d =>
                (<[target_file :=
                     ArchiveFile (archive_format_option o)
                       {| export_version := target; data := d |}]> fs,
                 cli_success EmptyString)
            end
        end
  end.

Record inspect_options : Type := {
  inspect_archive : string;
  inspect_version : bool;      (* -v / --version *)
  inspect_data : bool;         (* -d / --data *)
  inspect_meta_data : bool     (* -m / --meta-data *)
}.

(** Modelled from the spec: [verdi archive inspect] of [cmd_archive.py]
    ("inspect on a corrupt archive reports "corrupt archive" and a
    non-zero/exception result"; "CLI failures surface as non-zero exit codes
    with human-readable messages"): a file that is not a readable archive is
    reported through [echo_critical]; for a readable one [--version] prints
    the archive format version. *)
Definition inspect (o : inspect_options) (fs : gmap string file) : cli_result :=
  match fs !! inspect_archive o with
  | None => usage_error "the archive does not exist"
  | Some (OtherFile _) =>
      echo_critical "corrupt archive: the file cannot be read"
  | Some (ArchiveFile _ a) =>
      if inspect_version o then cli_success (version_string (export_version a))
      else cli_success (show_payload (inspect_data o) (data a))
  end.

End Archive.

(** [needle in haystack] for texts *)
Definition contains (needle haystack : string) : Prop :=
  exists before after : string, haystack = (before ++ needle ++ after)%string.

(** ** Vocabulary of the statements *)

(** The data after [count] migrations in a row, starting with the one of
    version [current]. *)
Fixpoint apply_migrations `{ArchiveSchema} (current count : nat) (d : payload)
    : payload :=
  match count with
  | 0 => d
  | S count' => apply_migrations (S current) count' (migration current d)
  end.

(** How many of the given keyword arguments are supplied, that is, are not
    [None]. *)
Definition supplied (args : list pyval) : nat :=
  length (List.filter is_not_None args).

(** A run that raised an exception of class [cls] before any call went to
    the backend. *)
Definition raises_without_backend {call entity : Type}
    (r : run call entity) (cls : exc_class) : Prop :=
  exists msg, r = ([], Raise (Exc cls msg)).

(** ** Instances to evaluate the definitions on *)

Definition sample_builtins : Builtins :=
  {| str_other := fun _ => "<value>"; type_str := fun _ => "<class 'object'>" |}.

(** A loader that finds the entity [pk = 7] under its pk and under the
    label ["pw"], and nothing else. *)
Definition sample_loader : loader_class Z :=
  LoaderClass true
    (fun c =>
       match lc_identifier c with
       | VInt 7 => Return 7%Z
       | VStr "pw" => Return 7%Z
       | _ => Raise (Exc RuntimeError "NotExistent")
       end).

Definition sample_loaders : Loaders Z :=
  {| OrmEntityLoader_type := "<class 'abc.ABCMeta'>";
     CodeEntityLoader := sample_loader;
     ComputerEntityLoader := sample_loader;
     GroupEntityLoader := sample_loader;
     NodeEntityLoader := sample_loader |}.

Definition sample_workflows : WorkflowClass string :=
  {| get_subclass_from_pk := fun pk =>
       match pk with
       | VInt 3 => Return "WorkflowDemo"
       | _ => Raise (Exc RuntimeError "NotExistent")
       end;
     get_subclass_from_uuid := fun uuid =>
       match uuid with
       | VStr "3e9e7c2c-0f3b-4d5e-9a57-2f6f0f1b8c11" => Return "WorkflowDemo"
       | _ => Raise (Exc RuntimeError "NotExistent")
       end |}.

(** A service that knows the key ["secret"] and holds one material. *)
Definition sample_materials_project : MaterialsProject :=
  {| api_check := fun key =>
       Return (list_to_map
                 [("valid_response", VBool true);
                  ("api_key_valid", VBool (eq_str key "secret"))]);
     mpr_query := fun criteria properties =>
       Return [VDict [("material_id", VStr "mp-149")]] |}.

(** Archives whose data is the list of the migrations applied to it; the
    current version is [0.10]. *)
Definition sample_schema : ArchiveSchema :=
  {| payload := list nat;
     EXPORT_VERSION := 10;
     migration := fun n d => d ++ [n];
     show_payload := fun _ d => ("migrations: " ++ pretty (length d))%string |}.

(** The fixture directory of the archive tests: the archive of version
    [0.1] and the empty file. *)
Definition sample_archive : @archive sample_schema :=
  {| export_version := 1; data := (@nil nat : @payload sample_schema) |}.

Definition sample_files : gmap string (@file sample_schema) :=
  <["empty.aiida" := OtherFile []]>
    {[ "export_v0.1_simple.aiida" := ArchiveFile zip sample_archive ]}.

(** [options = [filename_input, filename_output, '--version', '0.2']] of
    [test_migrate_version_specific] *)
Definition options_version_specific : migrate_options :=
  {| input_file := "export_v0.1_simple.aiida"; output_file := Some "tmp_output";
     in_place := false; force := false; version := Some 2;
     archive_format_option := zip |}.

(** The three invocations of [test_migrate_in_place], on the copy
    [filename_tmp] of the fixture. *)
Definition files_with_copy : gmap string (@file sample_schema) :=
  <["tmp_copy" := ArchiveFile zip sample_archive]> sample_files.

Definition options_in_place_and_output : migrate_options :=
  {| input_file := "tmp_copy"; output_file := Some "test.aiida";
     in_place := true; force := false; version := None;
     archive_format_option := zip |}.

Definition options_neither : migrate_options :=
  {| input_file := "tmp_copy"; output_file := None;
     in_place := false; force := false; version := None;
     archive_format_option := zip |}.

Definition options_in_place : migrate_options :=
  {| input_file := "tmp_copy"; output_file := None;
     in_place := true; force := false; version := Some 2;
     archive_format_option := zip |}.

(** [options = ['--verbosity', 'DEBUG', filename_input, filename_output]] of
    [test_migrate_versions_old] *)
Definition options_latest : migrate_options :=
  {| input_file := "export_v0.1_simple.aiida"; output_file := Some "tmp_output";
     in_place := false; force := false; version := None;
     archive_format_option := zip |}.

(** [options = [filename_input]] of [test_inspect_empty_archive] *)
Definition options_inspect_empty : inspect_options :=
  {| inspect_archive := "empty.aiida"; inspect_version := false;
     inspect_data := false; inspect_meta_data := false |}.

(** ** [matp.py]: search results and entries *)

(** An object handed around by the importer: a value, or a tuple of
    values. *)
Inductive pyobj : Type :=
| Obj (v : pyval)
| Tuple (items : list pyval).

Definition obj_is_not_None (o : pyobj) : bool :=
  match o with
  | Obj v => is_not_None v
  | Tuple _ => true
  end.

(** What the interpreter and the clock supply to [MatProjSearchResults]: the
    text of the [TypeError] of [str + v] for a [v] that is no text, and
    [str(datetime.datetime.now())] at the time the class body ran. *)
Class ResultsEnv : Type := {
  concat_error : pyval -> string;
  now : string
}.

(** [s + v] for a [str] [s] *)
Definition str_add `{ResultsEnv} (s : string) (v : pyval) : result pyval :=
  match v with
  | VStr t => Return (VStr (s ++ t))
  | VUnicode t => Return (VUnicode (s ++ t))
  | _ => Raise (Exc TypeError (concat_error v))
  end.

(** The class attributes of [MatProjSearchResults]. *)
Definition _db_name : string := "Materials Project".
Definition _db_uri : string := "https://materialsproject.org".
Definition _material_base_url : string := "https://materialsproject.org/materials/".
Definition _license : string := "Unknown".
Definition _version `{ResultsEnv} : string :=
  "Pulled from the Materials Project databse at: " ++ now.

Section MatProjResults.

Context `{ResultsEnv}.

Definition _get_source_dict (result_dict : gmap string pyval)
    : result (gmap string pyval) :=
  id ← subscript result_dict "material_id";
  material_id ← subscript result_dict "material_id";
  uri ← str_add _material_base_url material_id;
  let source_dict : gmap string pyval :=
    <["version" := VStr _version]>
      (<["uri" := uri]>
         (<["license" := VStr _license]>
            (<["id" := id]>
               (<["db_uri" := VStr _db_uri]>
                  (<["db_name" := VStr _db_name]> ∅))))) in
  if bool_decide (is_Some (result_dict !! "cif")) then
    cif ← subscript result_dict "cif";
    Return (<["cif" := cif]> source_dict)
  else Return source_dict.

(** The [return] of [_get_url] ends in a comma: the value is a tuple. *)
Definition _get_url (result_dict : gmap string pyval) : result pyobj :=
  material_id ← subscript result_dict "material_id";
  uri ← str_add _material_base_url material_id;
  Return (Tuple [uri]).

End MatProjResults.

(** What an [__init__] of an entry class does with its keyword arguments:
    the attribute it sets on the object, if any, and the keyword arguments
    it hands to the [__init__] of the next class. *)
Record entry_init : Type := {
  sets_attribute : option pyobj;
  passed_on : gmap string pyobj
}.

(** [kwargs.pop(key, None)] *)
Definition pop_or_None (key : string) (kwargs : gmap string pyobj)
    : pyobj * gmap string pyobj :=
  (default (Obj VNone) (kwargs !! key), delete key kwargs).

(** [MatProjEntry.__init__(self, **kwargs)]; the attribute is [_license]. *)
Definition MatProjEntry__init__ (kwargs : gmap string pyobj) : entry_init :=
  let '(lic, kwargs) := pop_or_None "license" kwargs in
  {| sets_attribute := if obj_is_not_None lic then Some lic else None;
     passed_on := kwargs |}.

(** [MatProjCifEntry.__init__(self, url, **kwargs)]; the attribute is [cif],
    set once the [__init__] of the next class has returned. *)
Definition MatProjCifEntry__init__ (url : pyobj) (kwargs : gmap string pyobj)
    : entry_init :=
  let '(cif, kwargs) := pop_or_None "cif" kwargs in
  let kwargs := <["uri" := url]> kwargs in
  {| sets_attribute := if obj_is_not_None cif then Some cif else None;
     passed_on := kwargs |}.

Definition sample_results_env : ResultsEnv :=
  {| concat_error := fun _ => "can only concatenate str to str";
     now := "2018-11-23 10:15:00.000000" |}.

(** A service that cannot be reached. *)
Definition offline_materials_project : MaterialsProject :=
  {| api_check := fun _ => Raise (Exc RuntimeError "ConnectionError");
     mpr_query := fun _ _ => Raise (Exc RuntimeError "ConnectionError") |}.

(** An entry of a query result, as the remote service returns it. *)
Definition sample_result : gmap string pyval :=
  <["cif" := VStr "data_Si"]>
    (<["structure" := VDict []]> {[ "material_id" := VStr "mp-149" ]}).

(** ** [aiida/sphinxext/base.py] *)

(** What the [valid_type] of a port can be, as far as [format_valid_types]
    can tell them apart: an object with a [__name__] (a class), an iterable
    without one (a tuple of such objects), or neither ([None], for one). *)
Inductive valid_type_spec : Type :=
| Named (name : string)
| Several (items : list valid_type_spec)
| Unnamed.

(** A docutils node: a text, or an element made by the constructor [tag]
    with the keyword argument [text] and other attributes, and the nodes
    appended to it since. *)
Inductive node : Type :=
| Text (data : string)
| Element (tag : string) (text : option string)
    (attributes : list (string * string)) (children : list node).

(** What docutils and the interpreter supply: [str()] of a valid type, and
    [publish_doctree(text)], given by the nodes of the document it returns
    (none for a text that is empty or blank) or by the exception it
    raises. *)
Class Docutils : Type := {
  str_valid_type : valid_type_spec -> string;
  publish_doctree : string -> result (list node)
}.

(** [n.children] *)
Definition node_children (n : node) : list node :=
  match n with
  | Text _ => []
  | Element _ _ _ children => children
  end.

(** The attributes of a port that the directive reads; [non_db] is [None]
    for a port without that attribute. *)
Record port_attributes : Type := {
  valid_type : valid_type_spec;
  required : bool;
  help : option string;
  non_db : option bool
}.

(** A port: of one of the classes the directive knows, or of another. *)
Inductive port : Type :=
| InputPort (a : port_attributes)
| OutputPort (a : port_attributes)
| PortNamespace (a : port_attributes) (ports : list (string * port))
| UnknownPort (a : port_attributes).

Definition port_attrs (p : port) : port_attributes :=
  match p with
  | InputPort a | OutputPort a | PortNamespace a _ | UnknownPort a => a
  end.

(** How a building function ends: with its value, with the
    [NotImplementedError] of an unknown port, with another exception (of a
    help text that cannot be read), or cut short by the bound on the
    nesting. *)
Inductive doc_result (A : Type) : Type :=
| Doc (a : A)
| NotImplementedError
| Raised (e : exc)
| OutOfFuel.
Arguments Doc {A} a.
Arguments NotImplementedError {A}.
Arguments Raised {A} e.
Arguments OutOfFuel {A}.

(** [try: body  except (cls1, cls2): handler] *)
Definition try_except2 {A : Type} (body : result A) (cls1 cls2 : exc_class)
    (handler : result A) : result A :=
  match body with
  | Return a => Return a
  | Raise e =>
      if issubclass_exc (exc_type e) cls1 || issubclass_exc (exc_type e) cls2
      then handler else Raise e
  end.

(** [v.__name__] *)
Definition dunder_name (v : valid_type_spec) : result string :=
  match v with
  | Named name => Return name
  | _ => Raise (Exc AttributeError "__name__")
  end.

(** The items of [for v in valid_type] *)
Definition iterate (v : valid_type_spec) : result (list valid_type_spec) :=
  match v with
  | Several items => Return items
  | _ => Raise (Exc TypeError "object is not iterable")
  end.

(** [getattr(port, 'non_db', False)] *)
Definition _is_non_db (p : port) : bool := default false (non_db (port_attrs p)).

(** [sorted(port_namespace.items())]: the items in the order of their
    names. *)
Fixpoint insert_item (x : string * port) (l : list (string * port))
    : list (string * port) :=
  match l with
  | [] => [x]
  | y :: l' => if String.leb x.1 y.1 then x :: l else y :: insert_item x l'
  end.

Definition sorted_items (l : list (string * port)) : list (string * port) :=
  foldr insert_item [] l.

Section Sphinxext.

Context `{Docutils}.

Definition format_valid_types (valid_type : valid_type_spec) : result string :=
  try_except (dunder_name valid_type) AttributeError
    (try_except2
       (items ← iterate valid_type;
        names ← mapM dunder_name items;
        Return ("(" ++ String.concat ", " names ++ ")")%string)
       AttributeError TypeError
       (Return (str_valid_type valid_type))).

(** [publish_doctree(help)[0].children]: the first node of an empty
    document is an [IndexError]. *)
Definition help_children (help : string) : result (list node) :=
  document ← publish_doctree help;
  match document with
  | first :: _ => Return (node_children first)
  | [] => Raise (Exc IndexError "list index out of range")
  end.

Definition build_port_paragraph (name : string) (p : port) : result node :=
  types ← format_valid_types (valid_type (port_attrs p));
  about ← match help (port_attrs p) with
          | Some h =>
              if negb (String.eqb h EmptyString)
              then children ← help_children h; Return (Text " -- " :: children)
              else Return []
          | None => Return []
          end;
  Return
    (Element "paragraph" None []
       ([ Element "literal_strong" (Some name) [] [];
          Text ",";
          Element "emphasis" (Some types) [] [];
          Text ",";
          Text (if required (port_attrs p) then "required" else "optional") ]
        ++ (if _is_non_db p
            then [Text ", "; Element "emphasis" (Some "non_db") [] []]
            else [])
        ++ about)).

(** The loop of [build_portnamespace_doctree] over the sorted items, with
    the items of the bullet list built so far; [recurse] is the call for a
    nested namespace. *)
Fixpoint doctree_items (recurse : list (string * port) -> doc_result node)
    (hide : bool) (items : list (string * port)) (result : list node)
    : doc_result (list node) :=
  match items with
  | [] => Doc result
  | (name, p) :: items' =>
      if _is_non_db p && hide then doctree_items recurse hide items' result
      else
        match p with
        | InputPort _ | OutputPort _ =>
            match build_port_paragraph name p with
            | Return paragraph =>
                doctree_items recurse hide items'
                  (result ++ [Element "list_item" None [] [paragraph]])
            | Raise e => Raised e
            end
        | PortNamespace a ports =>
            match
              match help a with
              | Some h =>
                  children ← help_children h; Return (Text " -- " :: children)
              | None => Return []
              end
            with
            | Raise e => Raised e
            | Return about =>
                match recurse ports with
                | Doc sub =>
                    doctree_items recurse hide items'
                      (result ++
                       [Element "list_item" None []
                          ([ Element "literal_strong" (Some name) [] [];
                             Text ", ";
                             Element "emphasis" (Some "Namespace") [] [] ]
                           ++ about
                           ++ [sub])])
                | NotImplementedError => NotImplementedError
                | Raised e => Raised e
                | OutOfFuel => OutOfFuel
                end
            end
        | UnknownPort _ => NotImplementedError
        end
  end.

(** [build_portnamespace_doctree(self, port_namespace)]; [hide] is whether
    ['hide-nondb-inputs'] is among the options of the directive, and [fuel]
    bounds the nesting of namespaces it follows. *)
Fixpoint build_portnamespace_doctree (fuel : nat) (hide : bool)
    (port_namespace : list (string * port)) : doc_result node :=
  match fuel with
  | 0 => OutOfFuel
  | S fuel' =>
      match doctree_items (build_portnamespace_doctree fuel' hide) hide
              (sorted_items port_namespace) [] with
      | Doc items => Doc (Element "bullet_list" None [("bullet", "*")] items)
      | NotImplementedError => NotImplementedError
      | Raised e => Raised e
      | OutOfFuel => OutOfFuel
      end
  end.

End Sphinxext.

(** How deep the namespaces of a port nest. *)
Fixpoint port_depth (p : port) : nat :=
  match p with
  | PortNamespace _ ports =>
      S ((fix ports_depth (l : list (string * port)) : nat :=
            match l with
            | [] => 0
            | (_, q) :: l' => Nat.max (port_depth q) (ports_depth l')
            end) ports)
  | _ => 0
  end.

Fixpoint ports_depth (l : list (string * port)) : nat :=
  match l with
  | [] => 0
  | (_, q) :: l' => Nat.max (port_depth q) (ports_depth l')
  end.

(** A namespace without the ports that ['hide-nondb-inputs'] hides, at
    every level. *)
Fixpoint prune_port (p : port) : port :=
  match p with
  | PortNamespace a ports =>
      PortNamespace a
        ((fix prune (l : list (string * port)) : list (string * port) :=
            match l with
            | [] => []
            | (name, q) :: l' =>
                if _is_non_db q then prune l' else (name, prune_port q) :: prune l'
            end) ports)
  | _ => p
  end.

Fixpoint prune_ports (l : list (string * port)) : list (string * port) :=
  match l with
  | [] => []
  | (name, q) :: l' =>
      if _is_non_db q then prune_ports l' else (name, prune_port q) :: prune_ports l'
  end.

(** The name an item of the bullet list is about: the text of the
    [literal_strong] that starts the item, or the paragraph in it. *)
Definition item_name (item : node) : option string :=
  match item with
  | Element "list_item" _ _ (Element "literal_strong" (Some name) _ _ :: _) =>
      Some name
  | Element "list_item" _ _
      (Element "paragraph" _ _ (Element "literal_strong" (Some name) _ _ :: _) :: _) =>
      Some name
  | _ => None
  end.

(** A parser that makes one paragraph of a text, and none of a text
    without a word. *)
Definition sample_docutils : Docutils :=
  {| str_valid_type := fun _ => "<valid type>";
     publish_doctree := fun text =>
       if String.eqb (strip text) EmptyString then Return []
       else Return [Element "paragraph" None [] [Text text]] |}.

Definition sample_port_attributes : port_attributes :=
  {| valid_type := Several [Named "Int"; Named "Float"]; required := true;
     help := Some "The cutoff."; non_db := None |}.

Definition sample_namespace : list (string * port) :=
  [ ("structure", InputPort sample_port_attributes);
    ("metadata",
     PortNamespace
       {| valid_type := Unnamed; required := false; help := None;
          non_db := Some true |}
       [("label", UnknownPort sample_port_attributes)]);
    ("code", InputPort sample_port_attributes) ].

(** A building function that came to its end, with a value or with an
    exception, and was not cut short. *)
Definition finished {A : Type} (r : doc_result A) : Prop :=
  match r with
  | Doc _ | NotImplementedError | Raised _ => True
  | OutOfFuel => False
  end.

(** What ['hide-nondb-inputs'] leaves of the items of one namespace. *)
Definition shown (hide : bool) (item : string * port) : bool :=
  negb (_is_non_db item.2 && hide).

(** The namespace holds, where the directive gets to, a port of a class it
    does not know: among its shown ports, or in a shown namespace below. *)
Inductive reaches_unknown (hide : bool) : list (string * port) -> Prop :=
| reaches_here (ports : list (string * port)) (name : string)
    (a : port_attributes) :
    In (name, UnknownPort a) ports ->
    shown hide (name, UnknownPort a) = true ->
    reaches_unknown hide ports
| reaches_below (ports : list (string * port)) (name : string)
    (a : port_attributes) (sub : list (string * port)) :
    In (name, PortNamespace a sub) ports ->
    shown hide (name, PortNamespace a sub) = true ->
    reaches_unknown hide sub ->
    reaches_unknown hide ports.

(** The help text the directive parses for a port: the [help] of a port
    when it is not empty, the [help] of a namespace when it is not [None]. *)
Definition parsed_help (p : port) : option string :=
  match p with
  | InputPort a | OutputPort a =>
      match help a with
      | Some h => if String.eqb h EmptyString then None else Some h
      | None => None
      end
  | PortNamespace a _ => help a
  | UnknownPort _ => None
  end.

Section HelpRaises.

Context `{Docutils}.

(** The namespace holds, where the directive gets to, a help text whose
    first node cannot be had, [e] being what is raised for it: with a shown
    port, or in a shown namespace below. *)
Inductive help_raises (hide : bool) (e : exc) : list (string * port) -> Prop :=
| help_raises_here (ports : list (string * port)) (name : string) (p : port)
    (h : string) :
    In (name, p) ports ->
    shown hide (name, p) = true ->
    parsed_help p = Some h ->
    help_children h = Raise e ->
    help_raises hide e ports
| help_raises_below (ports : list (string * port)) (name : string)
    (a : port_attributes) (sub : list (string * port)) :
    In (name, PortNamespace a sub) ports ->
    shown hide (name, PortNamespace a sub) = true ->
    help_raises hide e sub ->
    help_raises hide e ports.

End HelpRaises.

(** ** [examples/submission/quantumespresso/test_neb_restart.py] *)

(** The ORM the script runs against.  The calculations are objects of the
    ORM; every method call and every attribute the script reads of them can
    raise, and a call that changes the calculation returns it as it is
    afterwards.  [calc_uuid] and [calc_pk] are [calc.uuid] and
    [calc.dbnode.pk] as [format] writes them; [relpath_abspath] is
    [os.path.relpath(subfolder.abspath)], which depends on the working
    directory. *)
Class NebShell : Type := {
  parent_calculation : Type;
  restart_calculation : Type;
  subfolder : Type;
  Calculation_get_subclass_from_pk : pyval -> result parent_calculation;
  is_QENebCalc : parent_calculation -> bool;
  get_state : parent_calculation -> result pyval;
  res_warnings : parent_calculation -> result pyval;
  create_restart : parent_calculation -> result restart_calculation;
  set_description : restart_calculation -> string -> result restart_calculation;
  submit_test : restart_calculation
                -> result (restart_calculation * (subfolder * string));
  relpath_abspath : subfolder -> result string;
  store_all : restart_calculation -> result restart_calculation;
  submit : restart_calculation -> result restart_calculation;
  calc_uuid : restart_calculation -> result string;
  calc_pk : restart_calculation -> result string
}.

(** What a run of the script does, in order: the calls it makes (whether
    they return or raise) and the lines it prints. *)
Inductive event : Type :=
| Factory (factory plugin : string)
| Stderr (line : string)
| Stdout (line : string)
| GetSubclassFromPk (pk : pyval)
| GetState
| ResWarnings
| CreateRestart (force_restart : bool)
| SetDescription (text : string)
| SubmitTest
| StoreAll
| Submit.

(** A piece of the script: what it did and how it ended. *)
Definition script (A : Type) : Type := (list event * result A)%type.

#[global] Instance script_ret : MRet script := fun A a => ([], Return a).

#[global] Instance script_bind : MBind script := fun A B f m =>
  match m with
  | (log, Return a) => let '(log', r) := f a in (log ++ log', r)
  | (log, Raise e) => (log, Raise e)
  end.

(** A call that is logged, a value that is read, a line that is printed,
    an exception that is raised. *)
Definition does {A : Type} (ev : event) (r : result A) : script A := ([ev], r).

Definition reads {A : Type} (r : result A) : script A := ([], r).

Definition prints (ev : event) : script unit := ([ev], Return tt).

Definition raises {A : Type} (e : exc) : script A := ([], Raise e).

(** [needle in haystack] for texts, as a test *)
Fixpoint is_substring (needle haystack : string) : bool :=
  String.prefix needle haystack
  || match haystack with
     | EmptyString => false
     | String _ rest => is_substring needle rest
     end.

(** [item in container] for a text [item]: an element of a list equal to
    it, a key of a dictionary, a part of a text; the other values are not
    iterable. *)
Definition py_contains (item : string) (container : pyval) : result bool :=
  match container with
  | VList l => Return (existsb (fun v => eq_str v item) l)
  | VDict d => Return (existsb (fun kv => String.eqb kv.1 item) d)
  | VStr s | VUnicode s => Return (is_substring item s)
  | VNone => Raise (Exc TypeError "argument of type 'NoneType' is not iterable")
  | VBool _ => Raise (Exc TypeError "argument of type 'bool' is not iterable")
  | VInt _ => Raise (Exc TypeError "argument of type 'int' is not iterable")
  | VFloat _ _ => Raise (Exc TypeError "argument of type 'float' is not iterable")
  | VUUID _ => Raise (Exc TypeError "argument of type 'UUID' is not iterable")
  end.

(** [os.path.join(a, b)] of [posixpath] *)
Definition os_path_join (a b : string) : string :=
  if String.prefix "/" b then b
  else if String.eqb a EmptyString || String.prefix "/" (String.rev a)
       then (a ++ b)%string
       else (a ++ "/" ++ b)%string.

Section NebRestart.

Context `{IntBuiltin} `{NebShell}.

(** The script from its first line to its last, on the command line [argv];
    it ends by running off its end, by [sys.exit(1)] or with an exception
    nobody catches.  The five factories of its first lines return the
    classes of plugins that come with the code. *)
Definition test_neb_restart (argv : list string) : script unit :=
  _ ← does (Factory "DataFactory" "upf") (Return tt);
  _ ← does (Factory "DataFactory" "parameter") (Return tt);
  _ ← does (Factory "DataFactory" "structure") (Return tt);
  _ ← does (Factory "DataFactory" "remote") (Return tt);
  _ ← does (Factory "CalculationFactory" "quantumespresso.neb") (Return tt);
  let first_parameter : option bool :=
    match argv !! 1 with
    | Some dontsend =>
        if String.eqb dontsend "--dont-send" then Some true
        else if String.eqb dontsend "--send" then Some false
        else None
    | None => None
    end in
  match first_parameter with
  | None =>
      _ ← prints (Stderr "The first parameter can only be either --send or --dont-send");
      raises (Exc SystemExit "1")
  | Some submit_test_flag =>
      match argv !! 2 with
      | None =>
          _ ← prints (Stderr "Must provide as second parameter the parent ID");
          raises (Exc SystemExit "1")
      | Some parent_id =>
          _ ← reads
                (try_except (py_int (VStr parent_id)) ValueError
                   (Raise (Exc ValueError
                             ("Parent_id not an integer: " ++ parent_id))));
          parentcalc ← does (GetSubclassFromPk (VStr parent_id))
                         (Calculation_get_subclass_from_pk (VStr parent_id));
          calc ←
            (if is_QENebCalc parentcalc then
               state ← does GetState (get_state parentcalc);
               out_of_time ←
                 (if eq_str state "FAILED" then
                    warnings ← does ResWarnings (res_warnings parentcalc);
                    reads (py_contains "Maximum CPU time exceeded" warnings)
                  else mret false);
               if out_of_time : bool then
                 calc ← does (CreateRestart true) (create_restart parentcalc);
                 does (SetDescription
                         "Test restart calculation with the Quantum ESPRESSO neb.x code")
                   (set_description calc
                      "Test restart calculation with the Quantum ESPRESSO neb.x code")
               else
                 _ ← prints (Stderr ("Parent calculation did not fail or did "
                                     ++ "not stop because of maximum CPU time limit."));
                 raises (Exc SystemExit "1")
             else
               _ ← prints (Stderr ("Parent calculation should be a neb.x "
                                   ++ "calculation."));
               raises (Exc SystemExit "1"));
          if submit_test_flag : bool then
            tested ← does SubmitTest (submit_test calc);
            uuid ← reads (calc_uuid tested.1);
            _ ← prints (Stdout ("Test_submit for calculation (uuid='"
                                ++ uuid ++ "')"));
            path ← reads (relpath_abspath tested.2.1);
            prints (Stdout ("Submit file in " ++ os_path_join path tested.2.2))
          else
            calc ← does StoreAll (store_all calc);
            uuid ← reads (calc_uuid calc);
            pk ← reads (calc_pk calc);
            _ ← prints (Stdout ("created calculation; calc=Calculation(uuid='"
                                ++ uuid ++ "') # ID=" ++ pk));
            calc ← does Submit (submit calc);
            uuid ← reads (calc_uuid calc);
            pk ← reads (calc_pk calc);
            prints (Stdout ("submitted calculation; calc=Calculation(uuid='"
                            ++ uuid ++ "') # ID=" ++ pk))
      end
  end.

End NebRestart.

(** A database with one neb.x calculation, of pk 42, that ran out of time;
    the restart calculation is known by its pk, 43 once it is stored. *)
Definition sample_neb_shell : NebShell :=
  {| parent_calculation := unit;
     restart_calculation := option Z;
     subfolder := string;
     Calculation_get_subclass_from_pk := fun pk =>
       match pk with
       | VStr "42" => Return tt
       | _ => Raise (Exc RuntimeError "NotExistent")
       end;
     is_QENebCalc := fun _ => true;
     get_state := fun _ => Return (VUnicode "FAILED");
     res_warnings := fun _ => Return (VList [VUnicode "Maximum CPU time exceeded"]);
     create_restart := fun _ => Return None;
     set_description := fun calc _ => Return calc;
     submit_test := fun calc => Return (calc, ("submit_test", "_aiidasubmit.sh"));
     relpath_abspath := fun folder => Return folder;
     store_all := fun _ => Return (Some 43%Z);
     submit := fun calc => Return calc;
     calc_uuid := fun _ => Return "0b8ae0e6-4c5b-4b0a-a1d5-7f3a4c1b2d9e";
     calc_pk := fun calc =>
       match calc with
       | Some pk => Return (pretty pk)
       | None => Return "None"
       end |}.

(** ** [tests/cmdline/commands/test_archive_export.py]: [delete_temporary_file] *)

(** How a call that returns nothing ends: it returns, it raises an
    [OSError] with its [errno] and text, or it raises something else. *)
Inductive os_outcome : Type :=
| Done
| RaisesOSError (errno : Z) (strerror : string)
| Raises (e : exc).

(** [errno.ENOENT] *)
Definition ENOENT : Z := 2.

(** The operating system: the states of its file system, [os.remove(path)]
    in one of them (the state afterwards and how the call ended), and
    whether a path names something ([os.path.lexists]). *)
Class OperatingSystem : Type := {
  filesystem : Type;
  os_remove : string -> filesystem -> filesystem * os_outcome;
  lexists : string -> filesystem -> bool
}.

(** [delete_temporary_file(filepath)]: an [OSError] other than [ENOENT] is
    raised again, an exception of another class is not caught. *)
Definition delete_temporary_file `{OperatingSystem} (filepath : string)
    (fs : filesystem) : filesystem * os_outcome :=
  match os_remove filepath fs with
  | (fs', Done) => (fs', Done)
  | (fs', RaisesOSError errno strerror) =>
      if negb (Z.eqb errno ENOENT) then (fs', RaisesOSError errno strerror)
      else (fs', Done)
  | (fs', Raises e) => (fs', Raises e)
  end.

(** A file system of one level, for the examples: what each path names. *)
Inductive dir_entry : Type := RegularFile | Directory.

Definition sample_operating_system : OperatingSystem :=
  {| filesystem := gmap string dir_entry;
     os_remove := fun path fs =>
       match fs !! path with
       | None => (fs, RaisesOSError ENOENT "No such file or directory")
       | Some Directory => (fs, RaisesOSError 21 "Is a directory")
       | Some RegularFile => (delete path fs, Done)
       end;
     lexists := fun path fs => bool_decide (is_Some (fs !! path)) |}.

(** * Part II: properties *)

(** ** [load_entity] and its wrappers *)

Lemma is_not_None_spec (v : pyval) : is_not_None v = true <-> v <> VNone.
Proof. destruct v; unfold is_not_None; simpl; split; intros Hv; congruence. Qed.

Lemma is_not_None_false (v : pyval) : is_not_None v = false <-> v = VNone.
Proof. destruct v; unfold is_not_None; simpl; split; intros Hv; congruence. Qed.

Lemma count_True_filter {A : Type} (f : A -> bool) (l : list A) :
  count_True (map f l) = length (List.filter f l).
Proof.
  induction l as [|a l IH]; simpl; [reflexivity|].
  rewrite IH. destruct (f a); reflexivity.
Qed.

Section LoadEntityFacts.

Context {entity : Type} `{Builtins} `{Loaders entity}.

Lemma load_entity_count_rejected (cls : loader_class entity)
    (identifier pk uuid label sub_classes query_with_dashes : pyval) :
  issubclass_OrmEntityLoader cls = true ->
  supplied [identifier; pk; uuid; label] <> 1 ->
  raises_without_backend
    (load_entity (Some cls) identifier pk uuid label sub_classes query_with_dashes)
    ValueError.
Proof.
  intros Hcls Hn. unfold load_entity, raises_without_backend.
  rewrite Hcls, count_True_filter. fold (supplied [identifier; pk; uuid; label]).
  cbn [negb].
  destruct (supplied [identifier; pk; uuid; label]) as [|[|n]] eqn:E.
  - cbn. eauto.
  - congruence.
  - cbn. eauto.
Qed.

(** C1: with a valid [entity_loader], when none of [identifier], [pk],
    [uuid], [label] is supplied, or two or more of them are, [load_entity]
    raises [ValueError] and no call has gone to the backend loader; hence
    the same holds for [load_code], [load_computer], [load_group] and
    [load_node], each with its loader class a sub class of
    [OrmEntityLoader]. *)
Theorem load_entity_identifier_count (cls : loader_class entity)
    (identifier pk uuid label sub_classes query_with_dashes : pyval) :
  issubclass_OrmEntityLoader cls = true ->
  supplied [identifier; pk; uuid; label] = 0
  \/ 2 <= supplied [identifier; pk; uuid; label] ->
  raises_without_backend
    (load_entity (Some cls) identifier pk uuid label sub_classes query_with_dashes)
    ValueError
  /\ (issubclass_OrmEntityLoader CodeEntityLoader = true ->
      raises_without_backend
        (load_code identifier pk uuid label sub_classes query_with_dashes)
        ValueError)
  /\ (issubclass_OrmEntityLoader ComputerEntityLoader = true ->
      raises_without_backend
        (load_computer identifier pk uuid label sub_classes query_with_dashes)
        ValueError)
  /\ (issubclass_OrmEntityLoader GroupEntityLoader = true ->
      raises_without_backend
        (load_group identifier pk uuid label sub_classes query_with_dashes)
        ValueError)
  /\ (issubclass_OrmEntityLoader NodeEntityLoader = true ->
      raises_without_backend
        (load_node identifier pk uuid label sub_classes query_with_dashes)
        ValueError).
Proof.
  intros Hcls Hn.
  assert (supplied [identifier; pk; uuid; label] <> 1) as Hne by lia.
  unfold load_code, load_computer, load_group, load_node.
  repeat split; intros; apply load_entity_count_rejected; assumption.
Qed.

End LoadEntityFacts.

Lemma load_entity_identifier_count_witness :
  raises_without_backend
    (@load_entity Z sample_builtins sample_loaders (Some sample_loader)
       VNone (VInt 7) VNone (VStr "pw") VNone (VBool true))
    ValueError
  /\ raises_without_backend
       (@load_node Z sample_builtins sample_loaders
          VNone VNone VNone VNone VNone (VBool true))
       ValueError.
Proof.
  split.
  - assert (2 <= supplied [VNone; VInt 7; VNone; VStr "pw"]) as Htwo
      by (vm_compute; lia).
    destruct (@load_entity_identifier_count Z sample_builtins sample_loaders
                sample_loader VNone (VInt 7) VNone (VStr "pw") VNone (VBool true)
                eq_refl (or_intror Htwo)) as [Hentity _].
    exact Hentity.
  - destruct (@load_entity_identifier_count Z sample_builtins sample_loaders
                sample_loader VNone VNone VNone VNone VNone (VBool true)
                eq_refl (or_introl eq_refl)) as (_ & _ & _ & _ & Hnode).
    exact (Hnode eq_refl).
Defined.

Section LoadEntityDispatch.

Context {entity : Type} `{Builtins} `{Loaders entity}.

Lemma supplied_one_cases (identifier pk uuid label : pyval) :
  supplied [identifier; pk; uuid; label] = 1 ->
  (identifier <> VNone /\ pk = VNone /\ uuid = VNone /\ label = VNone)
  \/ (identifier = VNone /\ pk <> VNone /\ uuid = VNone /\ label = VNone)
  \/ (identifier = VNone /\ pk = VNone /\ uuid <> VNone /\ label = VNone)
  \/ (identifier = VNone /\ pk = VNone /\ uuid = VNone /\ label <> VNone).
Proof.
  unfold supplied. cbn [List.filter].
  destruct (is_not_None identifier) eqn:Ei, (is_not_None pk) eqn:Ep,
           (is_not_None uuid) eqn:Eu, (is_not_None label) eqn:El;
    cbn [length]; intros Hn; try discriminate Hn;
    rewrite ?is_not_None_spec, ?is_not_None_false in *; tauto.
Qed.

Lemma load_entity_valid_one (cls : loader_class entity)
    (identifier pk uuid label sub_classes query_with_dashes : pyval) :
  issubclass_OrmEntityLoader cls = true ->
  supplied [identifier; pk; uuid; label] = 1 ->
  load_entity (Some cls) identifier pk uuid label sub_classes query_with_dashes
  = match
      (if is_not_None pk then
         if negb (isinstance_int pk) then
           Raise (Exc TypeError "a pk has to be an integer")
         else Return (pk, Some ID)
       else if is_not_None uuid then
         if negb (isinstance_string_types uuid) then
           Raise (Exc TypeError "uuid has to be a string type")
         else Return (uuid, Some UUID)
       else if is_not_None label then
         if negb (isinstance_string_types label) then
           Raise (Exc TypeError "label has to be a string type")
         else Return (label, Some LABEL)
       else Return (VStr (py_str identifier), None))
    with
    | Raise e => fail e
    | Return (identifier', identifier_type) =>
        call_backend cls
          (LoaderCall identifier' identifier_type sub_classes query_with_dashes)
    end.
Proof.
  intros Hcls Hn. unfold load_entity.
  rewrite Hcls, count_True_filter. fold (supplied [identifier; pk; uuid; label]).
  rewrite Hn. reflexivity.
Qed.

(** C2, as amended: with an [entity_loader] that is a sub class of
    [OrmEntityLoader] and exactly one of [identifier], [pk], [uuid], [label]
    supplied: a [pk] that is not an integer, a [uuid] that is not a string
    and a [label] that is not a string each raise [TypeError] (before any
    backend call); a keyword of the right type raises nothing in
    [load_entity] itself, which makes one call to the backend loader with
    that value and [IdentifierType.ID], [UUID] or [LABEL] respectively and
    ends as that call ends; a bare [identifier] is passed on as [str()] of it
    with no identifier type. *)
Theorem load_entity_single_identifier (cls : loader_class entity)
    (identifier pk uuid label sub_classes query_with_dashes : pyval) :
  issubclass_OrmEntityLoader cls = true ->
  supplied [identifier; pk; uuid; label] = 1 ->
  let r := load_entity (Some cls) identifier pk uuid label
             sub_classes query_with_dashes in
  let backend (v : pyval) (t : option IdentifierType) : run loader_call entity :=
    ([LoaderCall v t sub_classes query_with_dashes],
     cls_load_entity cls (LoaderCall v t sub_classes query_with_dashes)) in
  (pk <> VNone ->
     (isinstance_int pk = false ->
        r = ([], Raise (Exc TypeError "a pk has to be an integer")))
     /\ (isinstance_int pk = true -> r = backend pk (Some ID)))
  /\ (uuid <> VNone ->
     (isinstance_string_types uuid = false ->
        r = ([], Raise (Exc TypeError "uuid has to be a string type")))
     /\ (isinstance_string_types uuid = true -> r = backend uuid (Some UUID)))
  /\ (label <> VNone ->
     (isinstance_string_types label = false ->
        r = ([], Raise (Exc TypeError "label has to be a string type")))
     /\ (isinstance_string_types label = true -> r = backend label (Some LABEL)))
  /\ (identifier <> VNone -> r = backend (VStr (py_str identifier)) None).
Proof.
  intros Hcls Hn r backend. subst r backend.
  rewrite (load_entity_valid_one _ _ _ _ _ _ _ Hcls Hn).
  unfold call_backend, fail.
  destruct (supplied_one_cases _ _ _ _ Hn)
    as [(Hi & -> & -> & ->) | [(-> & Hp & -> & ->)
       | [(-> & -> & Hu & ->) | (-> & -> & -> & Hl)]]].
  - cbn [is_not_None is_None negb].
    split; [|split; [|split]]; intros Hv; congruence || reflexivity.
  - apply is_not_None_spec in Hp. rewrite Hp.
    split; [|split; [|split]]; intros Hv; try congruence.
    split; intros Ht; rewrite Ht; reflexivity.
  - apply is_not_None_spec in Hu. rewrite Hu. cbn [is_not_None is_None negb].
    split; [|split; [|split]]; intros Hv; try congruence.
    split; intros Ht; rewrite Ht; reflexivity.
  - apply is_not_None_spec in Hl. rewrite Hl. cbn [is_not_None is_None negb].
    split; [|split; [|split]]; intros Hv; try congruence.
    split; intros Ht; rewrite Ht; reflexivity.
Qed.

End LoadEntityDispatch.

Lemma load_entity_single_identifier_witness :
  @load_entity Z sample_builtins sample_loaders (Some sample_loader)
    VNone (VInt 7) VNone VNone VNone (VBool true)
  = ([LoaderCall (VInt 7) (Some ID) VNone (VBool true)], Return 7%Z)
  /\ @load_entity Z sample_builtins sample_loaders (Some sample_loader)
       VNone (VStr "7") VNone VNone VNone (VBool true)
     = ([], Raise (Exc TypeError "a pk has to be an integer")).
Proof.
  split.
  - apply (@load_entity_single_identifier Z sample_builtins sample_loaders
             sample_loader VNone (VInt 7) VNone VNone VNone (VBool true)
             eq_refl eq_refl); [discriminate | reflexivity].
  - apply (@load_entity_single_identifier Z sample_builtins sample_loaders
             sample_loader VNone (VStr "7") VNone VNone VNone (VBool true)
             eq_refl eq_refl); [discriminate | reflexivity].
Defined.

(** C2, as stated, fails: [entity_loader] is a keyword of [load_entity]
    like the others, [None] when left out, and with it [load_entity(pk=7)],
    one identifier of the right type, raises [TypeError] and calls no
    backend. *)
Lemma load_entity_single_identifier_counterexample :
  ~ (forall (entity_loader : option (loader_class Z)) (pk : pyval),
       isinstance_int pk = true ->
       (@load_entity Z sample_builtins sample_loaders entity_loader
          VNone pk VNone VNone VNone (VBool true)).1 <> []
       /\ forall msg,
            (@load_entity Z sample_builtins sample_loaders entity_loader
               VNone pk VNone VNone VNone (VBool true)).2
            <> Raise (Exc TypeError msg)).
Proof.
  intros Hclaim.
  destruct (Hclaim None (VInt 7) eq_refl) as [Hcall _].
  apply Hcall. reflexivity.
Qed.

(** ** [load_workflow] *)


Section LoadWorkflowFacts.

Context {workflow : Type} `{Builtins} `{WorkflowClass workflow}.

Lemma nones_supplied (wf_id pk uuid : pyval) :
  Nat.b2n (is_None wf_id) + Nat.b2n (is_None pk) + Nat.b2n (is_None uuid)
  = 3 - supplied [wf_id; pk; uuid].
Proof.
  unfold supplied, is_not_None. cbn [List.filter].
  destruct (is_None wf_id), (is_None pk), (is_None uuid); reflexivity.
Qed.

Lemma supplied_one_of_three (wf_id pk uuid : pyval) :
  supplied [wf_id; pk; uuid] = 1 ->
  (wf_id <> VNone /\ pk = VNone /\ uuid = VNone)
  \/ (wf_id = VNone /\ pk <> VNone /\ uuid = VNone)
  \/ (wf_id = VNone /\ pk = VNone /\ uuid <> VNone).
Proof.
  unfold supplied. cbn [List.filter].
  destruct (is_not_None wf_id) eqn:Ew, (is_not_None pk) eqn:Ep,
           (is_not_None uuid) eqn:Eu;
    cbn [length]; intros Hn; try discriminate Hn;
    rewrite ?is_not_None_spec, ?is_not_None_false in *; tauto.
Qed.

Lemma load_workflow_count_rejected (wf_id pk uuid : pyval) :
  supplied [wf_id; pk; uuid] <> 1 ->
  raises_without_backend (load_workflow wf_id pk uuid) ValueError.
Proof.
  intros Hn. unfold load_workflow, raises_without_backend.
  rewrite nones_supplied.
  assert (supplied [wf_id; pk; uuid] <= 3) as Hle.
  { unfold supplied. etransitivity; [apply List.filter_length_le|]. reflexivity. }
  destruct (supplied [wf_id; pk; uuid]) as [|[|[|[|n]]]]; try lia; try congruence;
    cbn; eauto.
Qed.

(** C7: [load_workflow] raises [ValueError] when none of [wf_id], [pk],
    [uuid] is supplied or when two or more are; with exactly one supplied, a
    value of the wrong type ([pk] not an integer; [uuid] neither a string nor
    a [UUID] instance; [wf_id] neither a string, an integer nor a [UUID]
    instance) raises [ValueError] as well, never [TypeError], and no call is
    made; otherwise the one call goes to [Workflow.get_subclass_from_pk] for
    an integer and to [Workflow.get_subclass_from_uuid] for a string or the
    text of a [UUID] instance. *)
Theorem load_workflow_validation_and_dispatch (wf_id pk uuid : pyval) :
  let r := load_workflow wf_id pk uuid in
  let from_pk (v : pyval) : run workflow_call workflow :=
    ([Call_get_subclass_from_pk v], get_subclass_from_pk v) in
  let from_uuid (v : pyval) : run workflow_call workflow :=
    ([Call_get_subclass_from_uuid v], get_subclass_from_uuid v) in
  (supplied [wf_id; pk; uuid] = 0 \/ 2 <= supplied [wf_id; pk; uuid] ->
     raises_without_backend r ValueError)
  /\ (supplied [wf_id; pk; uuid] = 1 ->
      (pk <> VNone ->
         (isinstance_int pk = false -> raises_without_backend r ValueError)
         /\ (isinstance_int pk = true -> r = from_pk pk))
      /\ (uuid <> VNone ->
         (isinstance_string_types uuid = false -> isinstance_UUID uuid = false ->
            raises_without_backend r ValueError)
         /\ (isinstance_string_types uuid = true -> r = from_uuid uuid)
         /\ (forall s, uuid = VUUID s -> r = from_uuid (VStr s)))
      /\ (wf_id <> VNone ->
         (isinstance_string_types wf_id = false -> isinstance_int wf_id = false ->
            isinstance_UUID wf_id = false -> raises_without_backend r ValueError)
         /\ (isinstance_string_types wf_id = true -> r = from_uuid wf_id)
         /\ (isinstance_int wf_id = true -> r = from_pk wf_id)
         /\ (forall s, wf_id = VUUID s -> r = from_uuid (VStr s)))).
Proof.
  intros r from_pk from_uuid. subst r from_pk from_uuid. split.
  - intros Hn. apply load_workflow_count_rejected. lia.
  - intros Hn. unfold load_workflow, raises_without_backend.
    rewrite nones_supplied, Hn. cbn [Nat.sub Nat.eqb Nat.ltb Nat.leb].
    unfold call_from_pk, call_from_uuid, fail.
    destruct (supplied_one_of_three _ _ _ Hn)
      as [(Hw & -> & ->) | [(-> & Hp & ->) | (-> & -> & Hu)]].
    + split; [|split]; intros Hv; try congruence.
      destruct wf_id; try congruence; cbn; rewrite ?andb_false_r; cbn;
        repeat split; intros; try discriminate; try congruence; eauto.
    + split; [|split]; intros Hv; try congruence.
      destruct pk; try congruence; cbn; rewrite ?andb_false_r; cbn;
        repeat split; intros; try discriminate; try congruence; eauto.
    + split; [|split]; intros Hv; try congruence.
      destruct uuid; try congruence; cbn; rewrite ?andb_false_r; cbn;
        repeat split; intros; try discriminate; try congruence; eauto.
Qed.

End LoadWorkflowFacts.

Lemma load_workflow_validation_and_dispatch_witness :
  @load_workflow string sample_builtins sample_workflows
    VNone (VInt 3) VNone
  = ([Call_get_subclass_from_pk (VInt 3)], Return "WorkflowDemo")
  /\ raises_without_backend
       (@load_workflow string sample_builtins sample_workflows
          VNone VNone (VInt 3)) ValueError.
Proof.
  split.
  - apply (@load_workflow_validation_and_dispatch string sample_builtins
             sample_workflows VNone (VInt 3) VNone);
      first [reflexivity | discriminate].
  - destruct (@load_workflow_validation_and_dispatch string sample_builtins
                sample_workflows VNone VNone (VInt 3)) as [_ Hone].
    destruct (Hone eq_refl) as (_ & Huuid & _).
    apply Huuid; first [reflexivity | discriminate].
Defined.

(** ** [MatProjImporter] *)


Lemma try_except_subscript {A : Type} (d : gmap string A) (key : string)
    (handler : result A) :
  try_except (subscript d key) AttributeError handler = subscript d key.
Proof. unfold subscript. destruct (d !! key); reflexivity. Qed.

Section MatProjFacts.

Context `{Builtins} `{MaterialsProject}.

(** C8: without a [query] keyword argument (or, given one, without a
    [collection] keyword argument) [MatProjImporter.query] raises [KeyError]
    for the missing key; whatever an [except AttributeError] handler around
    a subscript of the keyword dictionary would do, the outcome is that of
    the subscript alone, so the two handlers are never run. *)
Theorem query_missing_keyword_KeyError (self : MatProjImporter)
    (kwargs : gmap string pyval) :
  (kwargs !! "query" = None ->
     query self kwargs = Raise (Exc KeyError "query"))
  /\ (is_Some (kwargs !! "query") -> kwargs !! "collection" = None ->
     query self kwargs = Raise (Exc KeyError "collection"))
  /\ (forall (key : string) (handler : result pyval),
     try_except (subscript kwargs key) AttributeError handler
     = subscript kwargs key).
Proof.
  split; [|split].
  - intros Hq. unfold query. rewrite !try_except_subscript.
    unfold subscript. rewrite Hq. reflexivity.
  - intros [q Hq] Hc. unfold query. rewrite !try_except_subscript.
    unfold subscript. rewrite Hq, Hc. reflexivity.
  - intros key handler. apply try_except_subscript.
Qed.

(** C9, as amended: called with a dictionary as [query] and with
    [collection=None] passed, [MatProjImporter.query] raises
    [ValueError('Unsupported collection: structures')], whatever the remote
    service would answer: [None] is replaced by the class attribute
    ['structures'], and the dispatch accepts ['structure'] only. *)
Theorem query_default_collection_rejected (self : MatProjImporter)
    (kwargs : gmap string pyval) (q : list (string * pyval)) :
  kwargs !! "query" = Some (VDict q) ->
  kwargs !! "collection" = Some VNone ->
  query self kwargs
  = Raise (Exc ValueError "Unsupported collection: structures").
Proof.
  intros Hq Hc. unfold query. rewrite !try_except_subscript.
  unfold subscript. rewrite Hq, Hc. reflexivity.
Qed.

Lemma query_not_a_dictionary (self : MatProjImporter)
    (kwargs : gmap string pyval) (q c : pyval) :
  kwargs !! "query" = Some q -> isinstance_dict q = false ->
  kwargs !! "collection" = Some c ->
  query self kwargs
  = Raise (Exc TypeError "The query argument should be a dictionary").
Proof.
  intros Hq Hdict Hc. unfold query. rewrite !try_except_subscript.
  unfold subscript. rewrite Hq, Hc. cbn. rewrite Hdict. reflexivity.
Qed.

(** The one collection the dispatch accepts goes to the remote service. *)
Lemma query_structure (self : MatProjImporter) (kwargs : gmap string pyval)
    (q : list (string * pyval)) :
  kwargs !! "query" = Some (VDict q) ->
  kwargs !! "collection" = Some (VStr "structure") ->
  query self kwargs
  = match mpr_query (VDict q) ["structure"; "material_id"; "cif"] with
    | Return results =>
        Return {| sr_results := results; sr_return_class := MatProjCifEntry |}
    | Raise e => Raise e
    end.
Proof.
  intros Hq Hc. unfold query. rewrite !try_except_subscript.
  unfold subscript. rewrite Hq, Hc. reflexivity.
Qed.

Lemma setup_db_env_key_overwritten (environ : gmap string string)
    (kwargs : gmap string pyval) (self : MatProjImporter) (k : string) :
  kwargs !! "api_key" = Some VNone ->
  environ !! "PMG_MAPI_KEY" = Some k ->
  setup_db environ kwargs self
  = ({| _api_key := Some VNone |}, _verify_api_key {| _api_key := Some VNone |}).
Proof.
  intros Hk He. unfold setup_db, subscript. rewrite Hk. cbn [is_None].
  rewrite He. reflexivity.
Qed.

(** C10: after a call of [setup_db] that does not raise, [self._api_key] is
    the [api_key] argument; in particular, when [api_key] is [None] the call
    can only have got that far with [PMG_MAPI_KEY] set, and [_api_key] is
    [None] all the same: the value read from the environment is overwritten
    before it is used. *)
Theorem setup_db_api_key_is_argument (environ : gmap string string)
    (kwargs : gmap string pyval) (self self' : MatProjImporter) :
  setup_db environ kwargs self = (self', Return tt) ->
  is_Some (kwargs !! "api_key")
  /\ _api_key self' = kwargs !! "api_key"
  /\ (kwargs !! "api_key" = Some VNone ->
      is_Some (environ !! "PMG_MAPI_KEY") /\ _api_key self' = Some VNone).
Proof.
  unfold setup_db, subscript. intros Hrun.
  destruct (kwargs !! "api_key") as [api_key|] eqn:Hk; [|discriminate Hrun].
  destruct (is_None api_key) eqn:Hnone.
  - destruct (environ !! "PMG_MAPI_KEY") as [k|] eqn:He; cbn in Hrun;
      [|discriminate Hrun].
    injection Hrun as <- _. cbn. split; [eauto|]. split; [reflexivity|].
    intros _. destruct api_key; try discriminate Hnone. eauto.
  - injection Hrun as <- _. cbn. split; [eauto|]. split; [reflexivity|].
    intros [= ->]. discriminate Hnone.
Qed.

End MatProjFacts.

Lemma query_missing_keyword_KeyError_witness :
  @query sample_builtins sample_materials_project
    {| _api_key := Some (VStr "secret") |} {[ "collection" := VStr "structure" ]}
  = Raise (Exc KeyError "query").
Proof.
  apply (@query_missing_keyword_KeyError sample_builtins sample_materials_project
           {| _api_key := Some (VStr "secret") |}
           {[ "collection" := VStr "structure" ]}).
  reflexivity.
Defined.

(** C9, as stated, fails: with the collection left out the call ends in
    [KeyError('collection')], and with [collection=None] but a [query] that
    is no dictionary it ends in [TypeError]. *)
Lemma query_default_collection_counterexample :
  ~ (forall kwargs : gmap string pyval,
       kwargs !! "collection" = None \/ kwargs !! "collection" = Some VNone ->
       @query sample_builtins sample_materials_project
         {| _api_key := Some (VStr "secret") |} kwargs
       = Raise (Exc ValueError "Unsupported collection: structures")).
Proof.
  intros Hclaim.
  specialize (Hclaim {[ "query" := VDict [] ]} (or_introl eq_refl)).
  vm_compute in Hclaim. discriminate Hclaim.
Qed.

Lemma query_default_collection_rejected_witness :
  @query sample_builtins sample_materials_project
    {| _api_key := Some (VStr "secret") |}
    (<["query" := VDict [("elements", VStr "Si")]]> {[ "collection" := VNone ]})
  = Raise (Exc ValueError "Unsupported collection: structures").
Proof.
  apply (@query_default_collection_rejected sample_builtins
           sample_materials_project {| _api_key := Some (VStr "secret") |}
           _ [("elements", VStr "Si")]); reflexivity.
Defined.

Lemma setup_db_api_key_is_argument_witness :
  @setup_db sample_builtins sample_materials_project
    ∅ {[ "api_key" := VStr "secret" ]} {| _api_key := None |}
  = ({| _api_key := Some (VStr "secret") |}, Return tt)
  /\ _api_key {| _api_key := Some (VStr "secret") |}
     = ({[ "api_key" := VStr "secret" ]} : gmap string pyval) !! "api_key".
Proof.
  assert (@setup_db sample_builtins sample_materials_project
            ∅ {[ "api_key" := VStr "secret" ]} {| _api_key := None |}
          = ({| _api_key := Some (VStr "secret") |}, Return tt)) as Hrun
    by (vm_compute; reflexivity).
  split; [exact Hrun|].
  apply (@setup_db_api_key_is_argument sample_builtins sample_materials_project
           ∅ {[ "api_key" := VStr "secret" ]} {| _api_key := None |}
           {| _api_key := Some (VStr "secret") |} Hrun).
Defined.

(** ** The COD query-clause builders *)

Section CodFacts.

Context `{IntBuiltin}.

(** The model of the builders does what [test_datatype_checks] expects of
    them, for each of its 36 combinations. *)
Lemma test_datatype_checks_passes : test_datatype_checks = true.
Proof. vm_compute. reflexivity. Qed.

Lemma check_types_rejects (accepted : pyval -> bool) (alias only : string)
    (values : list pyval) :
  forallb accepted values = false ->
  check_types accepted alias only values
  = Raise (Exc ValueError
             ("incorrect value for keyword '" ++ alias ++ "' -- only "
              ++ only ++ " are accepted")).
Proof. intros Hv. unfold check_types. rewrite Hv. reflexivity. Qed.

Lemma check_types_accepts (accepted : pyval -> bool) (alias only : string)
    (values : list pyval) :
  forallb accepted values = true ->
  check_types accepted alias only values = Return tt.
Proof. intros Hv. unfold check_types. rewrite Hv. reflexivity. Qed.

Lemma clause_method_check (k : clause_kind) (key alias : string)
    (values : list pyval) :
  clause_method k key alias values
  = match check_types (accepted_type k) alias (accepted_names k) values with
    | Raise e => Raise e
    | Return _ =>
        match k with
        | IntClause =>
            match mapM py_int values with
            | Return _ => Return tt
            | Raise e => Raise e
            end
        | _ => Return tt
        end
    end.
Proof.
  destruct k; cbn [clause_method accepted_type accepted_names];
    unfold _int_clause, _str_exact_clause, _formula_clause, _str_fuzzy_clause,
      _composition_clause, _volume_clause, mbind, result_bind;
    destruct (check_types _ alias _ values) as [[]|e]; reflexivity.
Qed.

(** [int()] of a value [_int_clause] accepts raises nothing but a
    [ValueError], the [UnicodeEncodeError] of a unicode text included. *)
Lemma py_int_accepted_raises (v : pyval) (e : exc) :
  accepted_type IntClause v = true -> py_int v = Raise e ->
  issubclass_exc (exc_type e) ValueError = true.
Proof.
  intros Hv Hraise. destruct v; cbn in Hv; try discriminate Hv;
    cbn in Hraise; try discriminate Hraise.
  - destruct (int_literal s); [discriminate Hraise|].
    injection Hraise as <-. reflexivity.
  - destruct (ascii_unicode s).
    + destruct (int_literal s); [discriminate Hraise|].
      injection Hraise as <-. reflexivity.
    + destruct (int_unicode s); try discriminate Hraise;
        injection Hraise as <-; reflexivity.
Qed.

(** A [str] that is no integer literal, and a unicode of ASCII characters
    that is none, have no reading. *)
Lemma py_int_not_a_literal (v : pyval) (s : string) :
  v = VStr s \/ (v = VUnicode s /\ ascii_unicode s = true) ->
  int_literal s = None ->
  py_int v = Raise (Exc ValueError (invalid_literal v)).
Proof.
  intros [-> | [-> Hascii]] Hlit; cbn; rewrite ?Hascii, Hlit; reflexivity.
Qed.

(** [mapM py_int] goes through when every value has an integer reading, and
    otherwise ends as [int()] does on the first value that has none. *)
Lemma mapM_py_int_returns (values : list pyval) :
  (exists ns, mapM py_int values = Return ns)
  <-> (forall v, In v values -> exists n, py_int v = Return n).
Proof.
  induction values as [|v values IH].
  - split; [intros _ v []|intros _; exists []; reflexivity].
  - cbn [mapM]. split.
    + intros [ns Hns] w [<- | Hin].
      * destruct (py_int v) as [n|e]; [eauto|discriminate Hns].
      * apply IH; [|exact Hin].
        destruct (py_int v) as [n|e]; [|discriminate Hns]. cbn in Hns.
        destruct (mapM py_int values) as [ns'|e]; [eauto|discriminate Hns].
    + intros Hall. destruct (Hall v (or_introl eq_refl)) as [n Hn].
      destruct (proj2 IH (fun w Hw => Hall w (or_intror Hw))) as [ns Hns].
      exists (n :: ns). rewrite Hn. cbn. rewrite Hns. reflexivity.
Qed.

Lemma mapM_py_int_raises (values : list pyval) (e : exc) :
  mapM py_int values = Raise e ->
  exists before v after,
    values = before ++ v :: after
    /\ (forall w, In w before -> exists n, py_int w = Return n)
    /\ py_int v = Raise e.
Proof.
  induction values as [|v values IH]; intros Hraise; [discriminate Hraise|].
  cbn [mapM] in Hraise. destruct (py_int v) as [n|e'] eqn:Hv.
  - cbn in Hraise. destruct (mapM py_int values) as [ns|e'] eqn:Hrest;
      [discriminate Hraise|].
    cbn in Hraise. injection Hraise as ->.
    destruct (IH eq_refl) as (before & w & after & -> & Hbefore & Hw).
    exists (v :: before), w, after. split; [reflexivity|]. split; [|exact Hw].
    intros u [<- | Hu]; [eauto|apply Hbefore, Hu].
  - cbn in Hraise. injection Hraise as ->.
    exists [], v, values. split; [reflexivity|]. split; [intros w []|exact Hv].
Qed.


End CodFacts.



(** ** The archive command line *)

Section ArchiveFacts.

Context `{ArchiveSchema}.

(** The chain reaches every later version up to the current one, and what
    it returns is the data with each migration in between applied in turn. *)
Lemma migrate_chain_reaches (count : nat) :
  forall (steps current : nat) (d : payload),
    count <= steps -> 1 <= current -> current + count <= EXPORT_VERSION ->
    migrate_chain steps current (current + count) d
    = Some (apply_migrations current count d).
Proof.
  induction count as [|count IH]; intros steps current d Hsteps Hlow Hhigh.
  - rewrite Nat.add_0_r. destruct steps; cbn [migrate_chain];
      rewrite Nat.eqb_refl; reflexivity.
  - destruct steps as [|steps]; [lia|]. cbn [migrate_chain apply_migrations].
    replace (Nat.eqb current (current + S count)) with false
      by (symmetry; apply Nat.eqb_neq; lia).
    replace (Nat.leb 1 current) with true by (symmetry; apply Nat.leb_le; lia).
    replace (Nat.ltb current EXPORT_VERSION) with true
      by (symmetry; apply Nat.ltb_lt; lia).
    cbn [andb]. replace (current + S count) with (S current + count) by lia.
    apply IH; lia.
Qed.

Lemma migrate_chain_older (current target : nat) (d : payload) :
  1 <= current -> current <= target -> target <= EXPORT_VERSION ->
  migrate_chain EXPORT_VERSION current target d
  = Some (apply_migrations current (target - current) d).
Proof.
  intros Hlow Hle Hhigh.
  replace target with (current + (target - current)) at 1 by lia.
  apply migrate_chain_reaches; lia.
Qed.

(** One run of [migrate] that gets as far as writing its output. *)
Lemma migrate_writes (o : migrate_options) (fs : gmap string file)
    (container : archive_format) (a : archive) (target_file : string) :
  fs !! input_file o = Some (ArchiveFile container a) ->
  1 <= export_version a ->
  export_version a <= default EXPORT_VERSION (version o) ->
  default EXPORT_VERSION (version o) <= EXPORT_VERSION ->
  (in_place o = true /\ output_file o = None /\ target_file = input_file o)
  \/ (in_place o = false /\ output_file o = Some target_file
      /\ (fs !! target_file = None \/ force o = true)) ->
  migrate o fs
  = (<[target_file :=
         ArchiveFile (archive_format_option o)
           {| export_version := default EXPORT_VERSION (version o);
              data := apply_migrations (export_version a)
                        (default EXPORT_VERSION (version o) - export_version a)
                        (data a) |}]> fs,
     cli_success EmptyString).
Proof.
  intros Hin Hlow Hle Hhigh Hout. unfold migrate.
  destruct Hout as [(Hi & Ho & ->) | (Hi & Ho & Hfree)]; rewrite Hi, Ho.
  - cbn [negb andb default from_option id]. rewrite Hin.
    rewrite migrate_chain_older by assumption. reflexivity.
  - cbn [negb andb default from_option id].
    assert ((negb (force o) && bool_decide (is_Some (fs !! target_file))) = false)
      as ->.
    { destruct Hfree as [Hfree | ->]; [|reflexivity].
      rewrite Hfree. rewrite bool_decide_eq_false_2; [apply andb_false_r|].
      intros [? ?]; discriminate. }
    rewrite Hin. rewrite migrate_chain_older by assumption. reflexivity.
Qed.

(** C3: for an archive of an older schema version and a target version [v]
    up to the current one, [migrate --version v] ends without exception and
    leaves, at the output file or with [--in-place] in place of the input, a
    valid zip (a tar.gz when that format is selected) whose metadata
    [export_version] is [v]. *)
Theorem migrate_to_requested_version (o : migrate_options)
    (fs : gmap string file) (container : archive_format) (a : archive)
    (v : nat) (target_file : string) :
  fs !! input_file o = Some (ArchiveFile container a) ->
  1 <= export_version a -> export_version a < v -> v <= EXPORT_VERSION ->
  version o = Some v ->
  (in_place o = true /\ output_file o = None /\ target_file = input_file o)
  \/ (in_place o = false /\ output_file o = Some target_file
      /\ (fs !! target_file = None \/ force o = true)) ->
  exception (migrate o fs).2 = None
  /\ exists f, (migrate o fs).1 !! target_file = Some f
       /\ (if archive_format_option o is tar_gz
           then is_tarfile f = true else valid_zip f = true)
       /\ metadata_export_version f = Some v.
Proof.
  intros Hin Hlow Hlt Hhigh Hv Hout.
  rewrite (migrate_writes o fs container a target_file Hin Hlow)
    by (rewrite ?Hv; cbn; first [lia | assumption]).
  rewrite Hv. cbn [fst snd exception cli_success default from_option id].
  split; [reflexivity|]. eexists. rewrite lookup_insert_eq.
  split; [reflexivity|]. split; [|reflexivity].
  destruct (archive_format_option o); reflexivity.
Qed.

(** C4: for an archive of a version from [0.1] on and strictly older than
    the current [EXPORT_VERSION], [migrate] without a target version ends
    without exception and writes a valid zip at the current version, whose
    data has gone through the migration of every version in between. *)
Theorem migrate_to_latest_version (o : migrate_options)
    (fs : gmap string file) (container : archive_format) (a : archive)
    (target_file : string) :
  fs !! input_file o = Some (ArchiveFile container a) ->
  1 <= export_version a -> export_version a < EXPORT_VERSION ->
  version o = None ->
  archive_format_option o = zip ->
  (in_place o = true /\ output_file o = None /\ target_file = input_file o)
  \/ (in_place o = false /\ output_file o = Some target_file
      /\ (fs !! target_file = None \/ force o = true)) ->
  exception (migrate o fs).2 = None
  /\ exists f, (migrate o fs).1 !! target_file = Some f
       /\ valid_zip f = true
       /\ metadata_export_version f = Some EXPORT_VERSION
       /\ f = ArchiveFile zip
                {| export_version := EXPORT_VERSION;
                   data := apply_migrations (export_version a)
                             (EXPORT_VERSION - export_version a) (data a) |}.
Proof.
  intros Hin Hlow Hlt Hv Hfmt Hout.
  rewrite (migrate_writes o fs container a target_file Hin Hlow)
    by (rewrite ?Hv; cbn; first [lia | assumption]).
  rewrite Hv, Hfmt. cbn [fst snd exception cli_success default from_option id].
  split; [reflexivity|]. eexists. rewrite lookup_insert_eq.
  repeat split; reflexivity.
Qed.

Lemma contains_prefix (before needle after : string) :
  contains needle (before ++ needle ++ after).
Proof. exists before, after. reflexivity. Qed.

(** C6: [inspect] on a file that is not a readable archive (an empty file,
    for one) ends with an exception and a non-zero exit code, and its output
    contains "corrupt archive". *)
Theorem inspect_corrupt_archive (o : inspect_options) (fs : gmap string file)
    (content : list ascii) :
  fs !! inspect_archive o = Some (OtherFile content) ->
  exception (inspect o fs) <> None
  /\ exit_code (inspect o fs) <> 0%Z
  /\ contains "corrupt archive" (output (inspect o fs)).
Proof.
  intros Hfile. unfold inspect. rewrite Hfile.
  cbn [exception exit_code output echo_critical].
  split; [discriminate|]. split; [discriminate|].
  apply (contains_prefix "Critical: " "corrupt archive" ": the file cannot be read").
Qed.

End ArchiveFacts.

(** The invocations of [test_migrate_in_place], run on the model. *)
Lemma test_migrate_in_place_passes :
  exception (@migrate sample_schema options_in_place_and_output files_with_copy).2
    <> None
  /\ exception (@migrate sample_schema options_neither files_with_copy).2 <> None
  /\ exception (@migrate sample_schema options_in_place files_with_copy).2 = None
  /\ (@migrate sample_schema options_in_place files_with_copy).1 !! "tmp_copy"
     = Some (ArchiveFile zip {| export_version := 2;
                                data := ([1] : @payload sample_schema) |}).
Proof. vm_compute. repeat split; discriminate. Qed.

Lemma migrate_to_requested_version_witness :
  exception (@migrate sample_schema options_version_specific sample_files).2 = None
  /\ exists f : @file sample_schema,
       (@migrate sample_schema options_version_specific sample_files).1
                 !! "tmp_output" = Some f
       /\ valid_zip f = true
       /\ metadata_export_version f = Some 2.
Proof.
  apply (@migrate_to_requested_version sample_schema options_version_specific
           sample_files zip sample_archive 2 "tmp_output");
    first [reflexivity | cbn; lia | right; repeat split; left; reflexivity].
Defined.

Lemma migrate_to_latest_version_witness :
  exception (@migrate sample_schema options_latest sample_files).2 = None
  /\ exists f : @file sample_schema,
       (@migrate sample_schema options_latest sample_files).1
                 !! "tmp_output" = Some f
       /\ valid_zip f = true
       /\ metadata_export_version f = Some 10
       /\ f = ArchiveFile zip
                {| export_version := 10;
                   data := ([1; 2; 3; 4; 5; 6; 7; 8; 9] : @payload sample_schema) |}.
Proof.
  apply (@migrate_to_latest_version sample_schema options_latest
           sample_files zip sample_archive "tmp_output");
    first [reflexivity | cbn; lia | right; repeat split; left; reflexivity].
Defined.

Lemma inspect_corrupt_archive_witness :
  exception (@inspect sample_schema options_inspect_empty sample_files) <> None
  /\ exit_code (@inspect sample_schema options_inspect_empty sample_files) <> 0%Z
  /\ contains "corrupt archive"
       (output (@inspect sample_schema options_inspect_empty sample_files)).
Proof.
  apply (@inspect_corrupt_archive sample_schema options_inspect_empty
           sample_files []).
  reflexivity.
Defined.

(** * Part III: further properties of the code *)

(** ** [load_entity] and [load_workflow]: when the backend is reached *)

Section LoaderCalls.

Context {entity : Type} `{Builtins} `{Loaders entity}.

(** X1: [load_entity] never makes more than one backend call.  It makes one
    exactly when the loader class is valid, one keyword is supplied and that
    keyword has the type asked of it (any type for a bare [identifier]);
    otherwise it is [load_entity] itself that raises, a [TypeError] or a
    [ValueError]. *)
Theorem load_entity_backend_call_iff
    (entity_loader : option (loader_class entity))
    (identifier pk uuid label sub_classes query_with_dashes : pyval) :
  let r := load_entity entity_loader identifier pk uuid label
             sub_classes query_with_dashes in
  length r.1 <= 1
  /\ (r.1 <> [] <->
      exists cls, entity_loader = Some cls
        /\ issubclass_OrmEntityLoader cls = true
        /\ supplied [identifier; pk; uuid; label] = 1
        /\ (pk <> VNone -> isinstance_int pk = true)
        /\ (uuid <> VNone -> isinstance_string_types uuid = true)
        /\ (label <> VNone -> isinstance_string_types label = true))
  /\ (r.1 = [] ->
      exists e, r.2 = Raise e
        /\ (exc_type e = TypeError \/ exc_type e = ValueError)).
Proof.
  intros r. subst r.
  destruct entity_loader as [cls|]; cycle 1.
  { cbn. split; [lia|]. split; [|eauto].
    split; [congruence|]. intros (cls & Hcls & _). discriminate Hcls. }
  destruct (issubclass_OrmEntityLoader cls) eqn:Hvalid; cycle 1.
  { unfold load_entity. rewrite Hvalid. cbn. split; [lia|]. split; [|eauto].
    split; [congruence|]. intros (cls' & [= <-] & Hcls' & _). congruence. }
  destruct (Nat.eq_dec (supplied [identifier; pk; uuid; label]) 1) as [Hone|Hne].
  - rewrite (load_entity_valid_one cls _ _ _ _ sub_classes query_with_dashes
               Hvalid Hone).
    destruct (supplied_one_cases _ _ _ _ Hone)
      as [(Hi & -> & -> & ->) | [(-> & Hp & -> & ->)
         | [(-> & -> & Hu & ->) | (-> & -> & -> & Hl)]]].
    + cbn. split; [lia|]. split; [|congruence].
      split; [|congruence]. intros _. exists cls.
        repeat split; intros; first [exact Hone | assumption | congruence].
    + pose proof Hp as Hp'. apply is_not_None_spec in Hp'. rewrite Hp'.
      destruct (isinstance_int pk) eqn:Hint; cbn.
      * split; [lia|]. split; [|congruence]. split; [|congruence].
        intros _. exists cls.
        repeat split; intros; first [exact Hone | assumption | congruence].
      * split; [lia|]. split; [|eauto]. split; [congruence|].
        intros (cls' & _ & _ & _ & Hpk & _). specialize (Hpk Hp). congruence.
    + pose proof Hu as Hu'. apply is_not_None_spec in Hu'. rewrite Hu'.
      destruct (isinstance_string_types uuid) eqn:Hstr; cbn.
      * split; [lia|]. split; [|congruence]. split; [|congruence].
        intros _. exists cls.
        repeat split; intros; first [exact Hone | assumption | congruence].
      * split; [lia|]. split; [|eauto]. split; [congruence|].
        intros (cls' & _ & _ & _ & _ & Huuid & _). specialize (Huuid Hu).
        congruence.
    + pose proof Hl as Hl'. apply is_not_None_spec in Hl'. rewrite Hl'.
      destruct (isinstance_string_types label) eqn:Hstr; cbn.
      * split; [lia|]. split; [|congruence]. split; [|congruence].
        intros _. exists cls.
        repeat split; intros; first [exact Hone | assumption | congruence].
      * split; [lia|]. split; [|eauto]. split; [congruence|].
        intros (cls' & _ & _ & _ & _ & _ & Hlabel). specialize (Hlabel Hl).
        congruence.
  - destruct (load_entity_count_rejected cls identifier pk uuid label
                sub_classes query_with_dashes Hvalid Hne) as [msg Hr].
    rewrite Hr. cbn [fst snd length]. split; [lia|]. split; [|eauto].
    split; [congruence|]. intros (cls' & _ & _ & Hone & _). destruct (Hne Hone).
Qed.

End LoaderCalls.

Section WorkflowCalls.

Context {workflow : Type} `{Builtins} `{WorkflowClass workflow}.

(** X2: [wf_id] stands for [pk] when it is an integer and for [uuid] when it
    is a string or a [UUID] instance: passing the value as [wf_id] or under
    the keyword of its kind gives the same call and the same outcome. *)
Theorem load_workflow_wf_id_interchangeable (v : pyval) :
  (isinstance_int v = true ->
     load_workflow v VNone VNone = load_workflow VNone v VNone)
  /\ (isinstance_string_types v = true \/ isinstance_UUID v = true ->
     load_workflow v VNone VNone = load_workflow VNone VNone v).
Proof.
  split.
  - intros Hint. destruct v; try discriminate Hint; cbn;
      rewrite ?andb_false_r; reflexivity.
  - intros [Hstr | Huuid]; destruct v; try discriminate; cbn;
      rewrite ?andb_false_r; reflexivity.
Qed.

(** X3: [load_workflow] never makes more than one call to [Workflow].  It
    makes one exactly when one of [wf_id], [pk], [uuid] is supplied and has
    a type asked of it; otherwise it is [load_workflow] itself that raises,
    and always a [ValueError]. *)
Theorem load_workflow_call_iff (wf_id pk uuid : pyval) :
  let r := load_workflow wf_id pk uuid in
  length r.1 <= 1
  /\ (r.1 <> [] <->
      supplied [wf_id; pk; uuid] = 1
      /\ (pk <> VNone -> isinstance_int pk = true)
      /\ (uuid <> VNone ->
          isinstance_string_types uuid = true \/ isinstance_UUID uuid = true)
      /\ (wf_id <> VNone ->
          isinstance_string_types wf_id = true \/ isinstance_int wf_id = true
          \/ isinstance_UUID wf_id = true))
  /\ (r.1 = [] -> raises_without_backend r ValueError).
Proof.
  intros r. subst r.
  destruct (Nat.eq_dec (supplied [wf_id; pk; uuid]) 1) as [Hone|Hne].
  - unfold load_workflow, raises_without_backend.
    rewrite nones_supplied, Hone. cbn [Nat.sub Nat.eqb Nat.ltb Nat.leb].
    unfold call_from_pk, call_from_uuid, fail.
    destruct (supplied_one_of_three _ _ _ Hone)
      as [(Hw & -> & ->) | [(-> & Hp & ->) | (-> & -> & Hu)]].
    + destruct wf_id; try congruence; clear Hone;
        cbn; rewrite ?andb_false_r; cbn;
        (split; [lia|]); (split; [|first [congruence | eauto]]); split;
        try (intros _; repeat split; intros;
             first [reflexivity | congruence | tauto]);
        try congruence;
        try (intros (_ & _ & _ & Hwf); destruct (Hwf Hw) as [?|[?|?]];
             discriminate).
    + destruct pk; try congruence; clear Hone;
        cbn;
        (split; [lia|]); (split; [|first [congruence | eauto]]); split;
        try (intros _; repeat split; intros;
             first [reflexivity | congruence | tauto]);
        try congruence;
        try (intros (_ & Hpk & _); specialize (Hpk Hp); discriminate).
    + destruct uuid; try congruence; clear Hone;
        cbn; rewrite ?andb_false_r; cbn;
        (split; [lia|]); (split; [|first [congruence | eauto]]); split;
        try (intros _; repeat split; intros;
             first [reflexivity | congruence | tauto]);
        try congruence;
        try (intros (_ & _ & Huuid & _); destruct (Huuid Hu) as [?|?];
             discriminate).
  - pose proof (load_workflow_count_rejected wf_id pk uuid Hne) as Hr.
    pose proof Hr as [msg Hmsg]. rewrite Hmsg. cbn [fst snd length].
    split; [lia|]. split; [|intros _; rewrite <- Hmsg; exact Hr].
    split; [congruence|]. intros (Hone & _). destruct (Hne Hone).
Qed.

End WorkflowCalls.

Section LoadersCompared.

Context {entity workflow : Type} `{Builtins} `{Loaders entity}
        `{WorkflowClass workflow}.

(** X4: [load_entity] and [load_workflow] treat the same wrong input
    differently.  A [pk] that is not an integer is a [TypeError] for
    [load_entity] and a [ValueError] for [load_workflow]; a [UUID] instance
    passed as [uuid] is a [TypeError] for [load_entity], while
    [load_workflow] looks the workflow up under the text of it. *)
Theorem loaders_differ_on_wrong_type (cls : loader_class entity)
    (v sub_classes query_with_dashes : pyval) :
  issubclass_OrmEntityLoader cls = true ->
  v <> VNone ->
  (isinstance_int v = false ->
     raises_without_backend
       (load_entity (Some cls) VNone v VNone VNone sub_classes query_with_dashes)
       TypeError
     /\ raises_without_backend
          (load_workflow (workflow := workflow) VNone v VNone) ValueError)
  /\ (forall s, v = VUUID s ->
     raises_without_backend
       (load_entity (Some cls) VNone VNone v VNone sub_classes query_with_dashes)
       TypeError
     /\ load_workflow (workflow := workflow) VNone VNone v
        = ([Call_get_subclass_from_uuid (VStr s)],
           get_subclass_from_uuid (VStr s))).
Proof.
  intros Hcls Hv. split.
  - intros Hint. split.
    + unfold load_entity, raises_without_backend. rewrite Hcls.
      destruct v; try congruence; try discriminate Hint; cbn; eauto.
    + unfold raises_without_backend.
      destruct v; try congruence; try discriminate Hint; cbn; eauto.
  - intros s ->. split.
    + unfold load_entity, raises_without_backend. rewrite Hcls. cbn. eauto.
    + reflexivity.
Qed.

End LoadersCompared.

Lemma loaders_differ_on_wrong_type_witness :
  raises_without_backend
    (@load_entity Z sample_builtins sample_loaders (Some sample_loader)
       VNone (VStr "7") VNone VNone VNone (VBool true)) TypeError
  /\ raises_without_backend
       (@load_workflow string sample_builtins sample_workflows
          VNone (VStr "7") VNone) ValueError.
Proof.
  destruct (@loaders_differ_on_wrong_type Z string sample_builtins sample_loaders
              sample_workflows sample_loader (VStr "7") VNone (VBool true)
              eq_refl) as [Hpk _]; [discriminate|].
  exact (Hpk eq_refl).
Defined.

(** ** [MatProjImporter]: the key check and the query *)

Section MatProjMore.

Context `{Builtins} `{MaterialsProject}.

(** X5: [_verify_api_key] returns exactly when the key is set, the request
    is answered, the answer has no ['error'] entry and its
    ['valid_response'] and ['api_key_valid'] entries are there and true; an
    answer with an ['error'] entry is a [RuntimeError] with that error as
    message, whatever else the answer says. *)
Theorem _verify_api_key_returns_iff (self : MatProjImporter) :
  (_verify_api_key self = Return tt <->
     exists key response valid_response api_key_valid,
       _api_key self = Some key
       /\ api_check key = Return response
       /\ response !! "error" = None
       /\ response !! "valid_response" = Some valid_response
       /\ truthy valid_response = true
       /\ response !! "api_key_valid" = Some api_key_valid
       /\ truthy api_key_valid = true)
  /\ (forall key response err,
        _api_key self = Some key -> api_check key = Return response ->
        response !! "error" = Some err ->
        _verify_api_key self = Raise (Exc RuntimeError (py_str err))).
Proof.
  unfold _verify_api_key, subscript. split; [split|].
  - destruct (_api_key self) as [key|]; [|discriminate]. cbn.
    destruct (api_check key) as [response|e] eqn:Hcheck; [|discriminate]. cbn.
    destruct (response !! "error") as [err|] eqn:Herr.
    { rewrite bool_decide_eq_true_2 by eauto. discriminate. }
    rewrite bool_decide_eq_false_2 by (intros [? ?]; discriminate).
    destruct (response !! "valid_response") as [v1|] eqn:Hv1; [|discriminate].
    cbn. destruct (truthy v1) eqn:Ht1; [|discriminate]. cbn.
    destruct (response !! "api_key_valid") as [v2|] eqn:Hv2; [|discriminate].
    cbn. destruct (truthy v2) eqn:Ht2; [|discriminate]. cbn.
    intros _. exists key, response, v1, v2.
    repeat split; first [assumption | reflexivity].
  - intros (key & response & v1 & v2 & -> & Hcheck & Herr & Hv1 & Ht1 & Hv2 & Ht2).
    cbn. rewrite Hcheck. cbn. rewrite Herr.
    rewrite bool_decide_eq_false_2 by (intros [? ?]; discriminate).
    rewrite Hv1. cbn. rewrite Ht1. cbn. rewrite Hv2. cbn. rewrite Ht2.
    reflexivity.
  - intros key response err -> Hcheck Herr. cbn. rewrite Hcheck. cbn.
    rewrite Herr. rewrite bool_decide_eq_true_2 by eauto. reflexivity.
Qed.

(** X6: with an [api_key] that is not [None], [setup_db] never reads the
    environment and stores the key before it checks it: whether the check
    passes or raises, the object holds the key afterwards. *)
Theorem setup_db_stores_key_before_check (environ : gmap string string)
    (kwargs : gmap string pyval) (self : MatProjImporter) (api_key : pyval) :
  kwargs !! "api_key" = Some api_key ->
  api_key <> VNone ->
  setup_db environ kwargs self
  = ({| _api_key := Some api_key |},
     _verify_api_key {| _api_key := Some api_key |})
  /\ setup_db environ kwargs self = setup_db ∅ kwargs self.
Proof.
  intros Hk Hnone. unfold setup_db, subscript. rewrite Hk.
  destruct api_key; try congruence; split; reflexivity.
Qed.

(** X7: [query] returns search results exactly when [query] is a dictionary,
    [collection] is ['structure'] and the remote query is answered; the
    results are the answer's entries, in its order, to be wrapped as
    [MatProjCifEntry]. *)
Theorem query_returns_iff (self : MatProjImporter)
    (kwargs : gmap string pyval) (found : MatProjSearchResults) :
  query self kwargs = Return found <->
  exists q collection results,
    kwargs !! "query" = Some (VDict q)
    /\ kwargs !! "collection" = Some collection
    /\ eq_str collection "structure" = true
    /\ mpr_query (VDict q) ["structure"; "material_id"; "cif"] = Return results
    /\ found = {| sr_results := results; sr_return_class := MatProjCifEntry |}.
Proof.
  unfold query. rewrite !try_except_subscript. unfold subscript, find. split.
  - destruct (kwargs !! "query") as [q|]; [|discriminate]. cbn.
    destruct (kwargs !! "collection") as [c|]; [|discriminate]. cbn.
    destruct q; cbn; try discriminate.
    destruct (is_None c) eqn:Hnone; [cbn; discriminate|].
    destruct (eq_str c "structure") eqn:Hc; [|discriminate].
    destruct (mpr_query (VDict d) ["structure"; "material_id"; "cif"])
      as [results|e] eqn:Hq; [|discriminate].
    cbn. intros [= <-]. exists d, c, results. repeat split; assumption.
  - intros (q & c & results & -> & -> & Hc & Hq & ->). cbn.
    assert (is_None c = false) as -> by (destruct c; cbn in Hc |- *; congruence).
    rewrite Hc, Hq. reflexivity.
Qed.

End MatProjMore.

Lemma setup_db_stores_key_before_check_witness :
  @setup_db sample_builtins sample_materials_project
    {[ "PMG_MAPI_KEY" := "secret" ]} {[ "api_key" := VStr "wrong" ]}
    {| _api_key := None |}
  = ({| _api_key := Some (VStr "wrong") |},
     Raise (Exc RuntimeError "Your API key for Materials Project is not valid.")).
Proof.
  destruct (@setup_db_stores_key_before_check sample_builtins
              sample_materials_project {[ "PMG_MAPI_KEY" := "secret" ]}
              {[ "api_key" := VStr "wrong" ]} {| _api_key := None |}
              (VStr "wrong")) as [Hrun _]; [reflexivity | discriminate |].
  rewrite Hrun. reflexivity.
Defined.

(** X8: unless [query] is a dictionary and [collection] is ['structure'],
    the outcome of [MatProjImporter.query] does not depend on the remote
    service: the service is not asked.  This covers a keyword left out, a
    query that is no dictionary, and every other collection, [None]
    included. *)
Theorem query_asks_service_only_for_structure `{Builtins}
    (service service' : MaterialsProject) (self : MatProjImporter)
    (kwargs : gmap string pyval) :
  ~ (exists q c, kwargs !! "query" = Some (VDict q)
                 /\ kwargs !! "collection" = Some c
                 /\ eq_str c "structure" = true) ->
  @query _ service self kwargs = @query _ service' self kwargs.
Proof.
  intros Hnot. unfold query. rewrite !try_except_subscript. unfold subscript.
  destruct (kwargs !! "query") as [q|] eqn:Hq; [|reflexivity]. cbn.
  destruct (kwargs !! "collection") as [c|] eqn:Hc; [|reflexivity]. cbn.
  destruct q; try reflexivity. cbn.
  destruct (is_None c) eqn:Hnone; [reflexivity|].
  destruct (eq_str c "structure") eqn:Hstr; [|reflexivity].
  destruct Hnot. eauto.
Qed.

Lemma query_asks_service_only_for_structure_witness :
  @query sample_builtins sample_materials_project {| _api_key := None |}
    {[ "query" := VDict [] ]}
  = @query sample_builtins offline_materials_project {| _api_key := None |}
      {[ "query" := VDict [] ]}.
Proof.
  apply (@query_asks_service_only_for_structure sample_builtins
           sample_materials_project offline_materials_project).
  intros (q & c & _ & Hc & _). vm_compute in Hc. discriminate Hc.
Defined.

(** ** [MatProjSearchResults] and the entry classes *)

Section MatProjResultsFacts.

Context `{ResultsEnv}.

(** X9: [_get_source_dict] needs a ['material_id'] in the result and raises
    [KeyError] without one.  For a result whose id is a text, the source
    dictionary has that id, the URI made of the base URL and the id, the
    ['cif'] of the result exactly when the result has one, and apart from
    these only the fixed entries of the database: nothing else of the result
    is carried over. *)
Theorem _get_source_dict_entries (result_dict : gmap string pyval) :
  (result_dict !! "material_id" = None ->
     _get_source_dict result_dict = Raise (Exc KeyError "material_id"))
  /\ (forall id, result_dict !! "material_id" = Some (VStr id) ->
     exists d, _get_source_dict result_dict = Return d
       /\ d !! "id" = Some (VStr id)
       /\ d !! "uri" = Some (VStr (_material_base_url ++ id))
       /\ d !! "cif" = result_dict !! "cif"
       /\ d !! "db_name" = Some (VStr "Materials Project")
       /\ d !! "db_uri" = Some (VStr "https://materialsproject.org")
       /\ d !! "license" = Some (VStr "Unknown")
       /\ (forall key, is_Some (d !! key) ->
             key ∈ ["db_name"; "db_uri"; "id"; "license"; "uri"; "version"; "cif"])).
Proof.
  unfold _get_source_dict, subscript. split.
  - intros ->. reflexivity.
  - intros id ->. cbn.
    destruct (result_dict !! "cif") as [cif|] eqn:Hcif.
    + rewrite bool_decide_eq_true_2 by eauto. cbn. eexists. split; [reflexivity|].
      repeat split; try reflexivity.
      intros key [v Hkey]. repeat rewrite lookup_insert in Hkey.
      repeat case_decide; subst; try (repeat constructor; fail).
      rewrite lookup_empty in Hkey. discriminate Hkey.
    + rewrite bool_decide_eq_false_2 by (intros [? ?]; discriminate).
      eexists. split; [reflexivity|].
      repeat split; try reflexivity.
      intros key [v Hkey]. repeat rewrite lookup_insert in Hkey.
      repeat case_decide; subst; try (repeat constructor; fail).
      rewrite lookup_empty in Hkey. discriminate Hkey.
Qed.

(** X10: [_get_url] ends as [_get_source_dict] does: when that one raises,
    [_get_url] raises the same exception, and when it returns, [_get_url]
    returns a tuple of one element, the ['uri'] of the source dictionary;
    what it returns is never the bare text. *)
Theorem _get_url_is_tuple_of_uri (result_dict : gmap string pyval) :
  match _get_source_dict result_dict with
  | Return d =>
      exists uri, d !! "uri" = Some uri
                  /\ _get_url result_dict = Return (Tuple [uri])
  | Raise e => _get_url result_dict = Raise e
  end
  /\ (forall v, _get_url result_dict <> Return (Obj v)).
Proof.
  unfold _get_source_dict, _get_url, subscript. split.
  - destruct (result_dict !! "material_id") as [id|]; [|reflexivity]. cbn.
    destruct (str_add _material_base_url id) as [uri|e]; [|reflexivity]. cbn.
    destruct (result_dict !! "cif") as [cif|] eqn:Hcif.
    + rewrite bool_decide_eq_true_2 by eauto. cbn. exists uri.
      split; reflexivity.
    + rewrite bool_decide_eq_false_2 by (intros [? ?]; discriminate).
      exists uri. split; reflexivity.
  - intros v. destruct (result_dict !! "material_id") as [id|]; [|discriminate].
    cbn. destruct (str_add _material_base_url id); discriminate.
Qed.

End MatProjResultsFacts.

(** X11: [MatProjCifEntry.__init__] hands on its keyword arguments without
    ['cif'] and with ['uri'] set to the [url] argument, whatever ['uri'] the
    caller passed; every other keyword goes through unchanged; and [cif] is
    set on the object exactly when a ['cif'] other than [None] was passed. *)
Theorem MatProjCifEntry__init___keywords (url : pyobj)
    (kwargs : gmap string pyobj) :
  let init := MatProjCifEntry__init__ url kwargs in
  passed_on init !! "uri" = Some url
  /\ passed_on init !! "cif" = None
  /\ (forall key, key <> "uri" -> key <> "cif" ->
        passed_on init !! key = kwargs !! key)
  /\ (forall cif, sets_attribute init = Some cif <->
        kwargs !! "cif" = Some cif /\ obj_is_not_None cif = true).
Proof.
  cbn. split; [|split; [|split]].
  - apply lookup_insert_eq.
  - rewrite lookup_insert_ne by discriminate. apply lookup_delete_eq.
  - intros key Huri Hcif.
    rewrite lookup_insert_ne by congruence. apply lookup_delete_ne. congruence.
  - intros cif. destruct (kwargs !! "cif") as [c|]; cbn.
    + destruct (obj_is_not_None c) eqn:Hc; split.
      * intros [= <-]. auto.
      * intros [[= <-] _]. reflexivity.
      * discriminate.
      * intros [[= <-] Hc']. congruence.
    + split; [discriminate|]. intros [Hcif _]. discriminate Hcif.
Qed.

(** X12: through [MatProjCifEntry.__init__] and then
    [MatProjEntry.__init__], neither ['cif'] nor ['license'] reaches the
    next initialiser, ['uri'] is the [url] argument, and the other keywords
    are those of the caller. *)
Theorem entry_initialisers_compose (url : pyobj) (kwargs : gmap string pyobj) :
  let handed :=
    passed_on (MatProjEntry__init__
                 (passed_on (MatProjCifEntry__init__ url kwargs))) in
  handed !! "cif" = None
  /\ handed !! "license" = None
  /\ handed !! "uri" = Some url
  /\ (forall key, key <> "uri" -> key <> "cif" -> key <> "license" ->
        handed !! key = kwargs !! key)
  /\ sets_attribute (MatProjEntry__init__
                       (passed_on (MatProjCifEntry__init__ url kwargs)))
     = match kwargs !! "license" with
       | Some lic => if obj_is_not_None lic then Some lic else None
       | None => None
       end.
Proof.
  cbn. split; [|split; [|split; [|split]]].
  - rewrite lookup_delete_ne by discriminate.
    rewrite lookup_insert_ne by discriminate. apply lookup_delete_eq.
  - apply lookup_delete_eq.
  - rewrite lookup_delete_ne by discriminate. apply lookup_insert_eq.
  - intros key Huri Hcif Hlic. rewrite lookup_delete_ne by congruence.
    rewrite lookup_insert_ne by congruence. apply lookup_delete_ne. congruence.
  - rewrite lookup_insert_ne by discriminate.
    rewrite lookup_delete_ne by discriminate.
    destruct (kwargs !! "license"); reflexivity.
Qed.

(** X13: an entry made from the url and the source dictionary of one result
    (whose id is a text) gets as ['uri'] the one-element tuple around the URI
    text, in place of the text the source dictionary held, and gets the
    ['cif'] of the result set as its [cif]. *)
Theorem entry_of_result_uri `{ResultsEnv} (result_dict : gmap string pyval)
    (id : string) :
  result_dict !! "material_id" = Some (VStr id) ->
  exists d url,
    _get_source_dict result_dict = Return d
    /\ _get_url result_dict = Return url
    /\ (Obj <$> d) !! "uri" = Some (Obj (VStr (_material_base_url ++ id)))
    /\ passed_on (MatProjCifEntry__init__ url (Obj <$> d)) !! "uri"
       = Some (Tuple [VStr (_material_base_url ++ id)])
    /\ sets_attribute (MatProjCifEntry__init__ url (Obj <$> d))
       = match result_dict !! "cif" with
         | Some cif => if is_not_None cif then Some (Obj cif) else None
         | None => None
         end.
Proof.
  intros Hid. unfold _get_url, _get_source_dict, subscript. rewrite Hid. cbn.
  destruct (result_dict !! "cif") as [cif|] eqn:Hcif.
  - rewrite bool_decide_eq_true_2 by eauto. cbn.
    eexists _, _. split; [reflexivity|]. split; [reflexivity|].
    split; [rewrite lookup_fmap; reflexivity|].
    split; [apply lookup_insert_eq|].
    cbn. rewrite lookup_fmap. reflexivity.
  - rewrite bool_decide_eq_false_2 by (intros [? ?]; discriminate).
    eexists _, _. split; [reflexivity|]. split; [reflexivity|].
    split; [rewrite lookup_fmap; reflexivity|].
    split; [apply lookup_insert_eq|].
    cbn. rewrite lookup_fmap. reflexivity.
Qed.

Lemma entry_of_result_uri_witness :
  exists d url,
    @_get_source_dict sample_results_env sample_result = Return d
    /\ @_get_url sample_results_env sample_result = Return url
    /\ (Obj <$> d) !! "uri"
       = Some (Obj (VStr "https://materialsproject.org/materials/mp-149"))
    /\ passed_on (MatProjCifEntry__init__ url (Obj <$> d)) !! "uri"
       = Some (Tuple [VStr "https://materialsproject.org/materials/mp-149"])
    /\ sets_attribute (MatProjCifEntry__init__ url (Obj <$> d))
       = Some (Obj (VStr "data_Si")).
Proof.
  apply (@entry_of_result_uri sample_results_env sample_result "mp-149").
  reflexivity.
Defined.

(** ** The Sphinx directive: [format_valid_types] *)

Section SphinxextFacts.

Context `{Docutils}.

Lemma mapM_dunder_name_named (names : list string) :
  mapM dunder_name (Named <$> names) = Return names.
Proof.
  induction names as [|name names IH]; [reflexivity|].
  cbn. cbn in IH. rewrite IH. reflexivity.
Qed.

Lemma mapM_dunder_name_unnamed (items : list valid_type_spec) :
  (exists item, In item items /\ forall name, item <> Named name) ->
  mapM dunder_name items = Raise (Exc AttributeError "__name__").
Proof.
  induction items as [|v items IH]; intros (item & Hin & Hitem).
  - destruct Hin.
  - destruct v as [name| |].
    + destruct Hin as [<-|Hin]; [destruct (Hitem name eq_refl)|].
      cbn. cbn in IH. rewrite IH by eauto. reflexivity.
    + reflexivity.
    + reflexivity.
Qed.

Lemma mapM_dunder_name_raises (items : list valid_type_spec) (e : exc) :
  mapM dunder_name items = Raise e -> exc_type e = AttributeError.
Proof.
  revert e. induction items as [|v items IH]; intros e Hnames;
    [discriminate Hnames|].
  cbn in Hnames. destruct v as [name| |]; cbn in Hnames;
    try (injection Hnames as <-; reflexivity).
  cbn in IH. destruct (mapM dunder_name items) as [names|e'];
    cbn in Hnames; [discriminate Hnames|].
  injection Hnames as <-. apply IH. reflexivity.
Qed.

Lemma format_valid_types_returns (v : valid_type_spec) :
  exists text, format_valid_types v = Return text.
Proof.
  unfold format_valid_types. destruct v as [name|items|]; cbn; eauto.
  destruct (mapM dunder_name items) as [names|e] eqn:Hnames; cbn; eauto.
  unfold try_except2. cbn. rewrite (mapM_dunder_name_raises _ _ Hnames).
  cbn. eauto.
Qed.

(** X14: [format_valid_types] never raises.  It gives the name of a type
    that has one, the names of a tuple of such types between brackets and
    separated by [", "] (["()"] for the empty tuple), and [str()] of the
    valid type in every other case: a tuple with an item without a name, or
    a value that is neither named nor iterable. *)
Theorem format_valid_types_total (v : valid_type_spec) :
  exists text, format_valid_types v = Return text
    /\ (forall name, v = Named name -> text = name)
    /\ (forall names, v = Several (Named <$> names) ->
          text = ("(" ++ String.concat ", " names ++ ")")%string)
    /\ (v = Unnamed
        \/ (exists items item, v = Several items /\ In item items
                               /\ forall name, item <> Named name) ->
        text = str_valid_type v).
Proof.
  unfold format_valid_types. destruct v as [name|items|].
  - exists name. cbn. split; [reflexivity|]. split; [congruence|].
    split; [discriminate|].
    intros [Hv | (items & item & Hv & _)]; discriminate Hv.
  - cbn.
    destruct (mapM dunder_name items) as [names|e] eqn:Hnames.
    + exists ("(" ++ String.concat ", " names ++ ")")%string. cbn.
      split; [reflexivity|]. split; [discriminate|]. split.
      * intros names' [= ->]. rewrite mapM_dunder_name_named in Hnames.
        injection Hnames as <-. reflexivity.
      * intros [Hv | (items' & item & [= <-] & Hin & Hitem)]; [discriminate Hv|].
        rewrite mapM_dunder_name_unnamed in Hnames by eauto. discriminate Hnames.
    + exists (str_valid_type (Several items)).
      pose proof (mapM_dunder_name_raises _ _ Hnames) as He.
      cbn. unfold try_except2. cbn. rewrite He. cbn.
      split; [reflexivity|]. split; [discriminate|]. split; [|reflexivity].
      intros names [= ->]. rewrite mapM_dunder_name_named in Hnames.
      discriminate Hnames.
  - exists (str_valid_type Unnamed). cbn.
    split; [reflexivity|]. split; [discriminate|]. split; [discriminate|].
    reflexivity.
Qed.

(** The paragraph of a port starts with its name; it is built unless the
    help text of the port is one that cannot be read. *)
Lemma build_port_paragraph_name (name : string) (p : port) (paragraph : node) :
  build_port_paragraph name p = Return paragraph ->
  item_name (Element "list_item" None [] [paragraph]) = Some name.
Proof.
  unfold build_port_paragraph.
  destruct (format_valid_types_returns (valid_type (port_attrs p)))
    as (text & ->).
  cbn.
  destruct (match help (port_attrs p) with
            | Some h =>
                if negb (String.eqb h EmptyString)
                then help_children h
                     ≫= (fun children => Return (Text " -- " :: children))
                else Return []
            | None => Return []
            end) as [about|e]; [|discriminate].
  intros [= <-]. reflexivity.
Qed.

Lemma build_port_paragraph_help (name : string) (p : port) :
  (exists a, p = InputPort a \/ p = OutputPort a) ->
  match build_port_paragraph name p with
  | Return _ =>
      forall h, parsed_help p = Some h -> exists c, help_children h = Return c
  | Raise e => exists h, parsed_help p = Some h /\ help_children h = Raise e
  end.
Proof.
  intros Hp.
  assert (parsed_help p
          = match help (port_attrs p) with
            | Some h => if String.eqb h EmptyString then None else Some h
            | None => None
            end) as Hparsed
    by (destruct Hp as [a [-> | ->]]; reflexivity).
  unfold build_port_paragraph.
  destruct (format_valid_types_returns (valid_type (port_attrs p)))
    as (text & ->).
  cbn. rewrite Hparsed.
  destruct (help (port_attrs p)) as [h|]; [|cbn; discriminate].
  destruct (String.eqb h EmptyString); cbn; [discriminate|].
  destruct (help_children h) as [c|e] eqn:Hchildren; cbn.
  - intros h' [= <-]. eauto.
  - eauto.
Qed.

End SphinxextFacts.

(** ** The Sphinx directive: [build_portnamespace_doctree] *)

Lemma insert_item_perm (x : string * port) (l : list (string * port)) :
  Permutation (insert_item x l) (x :: l).
Proof.
  induction l as [|y l IH]; cbn; [reflexivity|].
  destruct (String.leb x.1 y.1); [reflexivity|].
  rewrite IH. apply perm_swap.
Qed.

Lemma sorted_items_perm (l : list (string * port)) :
  Permutation (sorted_items l) l.
Proof.
  induction l as [|x l IH]; cbn; [reflexivity|].
  rewrite insert_item_perm. apply perm_skip. exact IH.
Qed.

Lemma port_depth_namespace (a : port_attributes) (ports : list (string * port)) :
  port_depth (PortNamespace a ports) = S (ports_depth ports).
Proof.
  reflexivity.
Qed.

Lemma ports_depth_In (name : string) (q : port) (l : list (string * port)) :
  In (name, q) l -> port_depth q <= ports_depth l.
Proof.
  induction l as [|[name' q'] l IH]; intros Hin; [destruct Hin|].
  cbn [ports_depth]. destruct Hin as [[= -> ->]|Hin]; [lia|].
  specialize (IH Hin). lia.
Qed.

Lemma In_sorted_items (x : string * port) (l : list (string * port)) :
  In x (sorted_items l) <-> In x l.
Proof.
  rewrite <- !list_elem_of_In. rewrite sorted_items_perm. reflexivity.
Qed.

Section DoctreeFacts.

Context `{Docutils}.

(** The loop depends on [recurse] only at the namespaces among its items. *)
Lemma doctree_items_finished
    (recurse recurse' : list (string * port) -> doc_result node) (hide : bool)
    (items : list (string * port)) :
  (forall name a sub, In (name, PortNamespace a sub) items ->
     recurse sub = recurse' sub /\ finished (recurse sub)) ->
  forall result,
    doctree_items recurse hide items result
    = doctree_items recurse' hide items result
    /\ finished (doctree_items recurse hide items result).
Proof.
  induction items as [|[name p] items IH]; intros Hrec result.
  - split; [reflexivity|exact I].
  - assert (forall name a sub, In (name, PortNamespace a sub) items ->
              recurse sub = recurse' sub /\ finished (recurse sub)) as Hrest
      by (intros; apply (Hrec name0 a sub); right; assumption).
    cbn [doctree_items].
    destruct (_is_non_db p && hide); [apply IH; assumption|].
    destruct p as [a|a|a sub|a].
    + destruct (build_port_paragraph name (InputPort a));
        [apply IH; assumption|split; [reflexivity|exact I]].
    + destruct (build_port_paragraph name (OutputPort a));
        [apply IH; assumption|split; [reflexivity|exact I]].
    + destruct (match help a with
                | Some h =>
                    help_children h
                    ≫= (fun children => Return (Text " -- " :: children))
                | None => Return []
                end); [|split; [reflexivity|exact I]].
      destruct (Hrec name a sub (or_introl eq_refl)) as [<- Hfin].
      destruct (recurse sub); try destruct Hfin;
        first [apply IH; assumption | split; [reflexivity|exact I]].
    + split; [reflexivity|exact I].
Qed.

Lemma build_portnamespace_doctree_fuel (fuel : nat) :
  forall (fuel' : nat) (hide : bool) (ports : list (string * port)),
    ports_depth ports < fuel -> ports_depth ports < fuel' ->
    build_portnamespace_doctree fuel hide ports
    = build_portnamespace_doctree fuel' hide ports
    /\ finished (build_portnamespace_doctree fuel hide ports).
Proof.
  induction fuel as [|fuel IH]; intros fuel' hide ports Hfuel Hfuel'; [lia|].
  destruct fuel' as [|fuel']; [lia|].
  cbn [build_portnamespace_doctree].
  assert (forall name a sub, In (name, PortNamespace a sub) (sorted_items ports) ->
            build_portnamespace_doctree fuel hide sub
            = build_portnamespace_doctree fuel' hide sub
            /\ finished (build_portnamespace_doctree fuel hide sub)) as Hrec.
  { intros name a sub Hin. apply (proj1 (In_sorted_items _ _)) in Hin.
    apply ports_depth_In in Hin. rewrite port_depth_namespace in Hin.
    apply IH; lia. }
  destruct (doctree_items_finished _ _ hide _ Hrec []) as [Heq Hfin].
  rewrite <- Heq.
  destruct (doctree_items (build_portnamespace_doctree fuel hide) hide
              (sorted_items ports) []); try destruct Hfin;
    (split; [reflexivity|exact I]).
Qed.

End DoctreeFacts.

(** *** The order of the items *)

Lemma leb_le (a b : string) : String.leb a b = true <-> String.le a b.
Proof. unfold String.le. split; [apply Is_true_true_2 | apply Is_true_true_1]. Qed.

Lemma leb_false_le (a b : string) : String.leb a b = false -> String.le b a.
Proof.
  intros Hab. destruct (String.le_total a b) as [Hle|Hle]; [|exact Hle].
  apply leb_le in Hle. congruence.
Qed.

Lemma insert_item_sorted (x : string * port) (l : list (string * port)) :
  StronglySorted (fun a b => String.le a.1 b.1) l ->
  StronglySorted (fun a b => String.le a.1 b.1) (insert_item x l).
Proof.
  induction 1 as [|y l Hl IH Hy]; cbn.
  - repeat constructor.
  - destruct (String.leb x.1 y.1) eqn:Hxy.
    + apply leb_le in Hxy. constructor; [constructor; assumption|].
      constructor; [exact Hxy|].
      eapply Forall_impl; [exact Hy|]. cbn. intros z Hz.
      etransitivity; eassumption.
    + apply leb_false_le in Hxy. constructor; [exact IH|].
      apply List.Forall_forall. intros z Hz.
      apply (proj2 (list_elem_of_In _ _)) in Hz.
      rewrite insert_item_perm in Hz.
      apply (proj1 (list_elem_of_In _ _)) in Hz.
      destruct Hz as [<-|Hz]; [exact Hxy|].
      rewrite List.Forall_forall in Hy. apply Hy. exact Hz.
Qed.

Lemma sorted_items_sorted (l : list (string * port)) :
  StronglySorted (fun a b => String.le a.1 b.1) (sorted_items l).
Proof.
  induction l as [|x l IH]; cbn; [constructor|].
  apply insert_item_sorted. exact IH.
Qed.

Lemma filter_Permutation_bool {A : Type} (f : A -> bool) (l l' : list A) :
  Permutation l l' -> Permutation (List.filter f l) (List.filter f l').
Proof.
  induction 1 as [|x l l' _ IH|x y l|l l' l'' _ IH _ IH'];
    cbn; [reflexivity|..].
  - destruct (f x); [apply perm_skip|]; exact IH.
  - destruct (f x), (f y); try reflexivity. apply perm_swap.
  - etransitivity; eassumption.
Qed.

Lemma filter_sorted {A : Type} (R : A -> A -> Prop) (f : A -> bool) (l : list A) :
  StronglySorted R l -> StronglySorted R (List.filter f l).
Proof.
  induction 1 as [|x l Hl IH Hx]; cbn; [constructor|].
  destruct (f x); [|exact IH]. constructor; [exact IH|].
  rewrite List.Forall_forall in *. intros y Hy.
  apply List.filter_In in Hy as [Hy _]. apply Hx. exact Hy.
Qed.

Lemma map_fst_sorted (l : list (string * port)) :
  StronglySorted (fun a b => String.le a.1 b.1) l ->
  StronglySorted String.le (map fst l).
Proof.
  induction 1 as [|x l Hl IH Hx]; cbn; [constructor|].
  constructor; [exact IH|].
  rewrite List.Forall_forall in *. intros name Hname.
  apply List.in_map_iff in Hname as (y & <- & Hy). apply Hx. exact Hy.
Qed.

Section DoctreeItems.

Context `{Docutils}.

Lemma doctree_items_names
    (recurse : list (string * port) -> doc_result node) (hide : bool)
    (items : list (string * port)) :
  forall result result',
    doctree_items recurse hide items result = Doc result' ->
    map item_name result'
    = map item_name result
      ++ map (fun x => Some x.1) (List.filter (shown hide) items).
Proof.
  induction items as [|[name p] items IH]; intros result result' Hrun.
  - cbn in Hrun. injection Hrun as <-. cbn. rewrite app_nil_r. reflexivity.
  - cbn [doctree_items] in Hrun. cbn [List.filter]. unfold shown at 1.
    cbn [snd]. destruct (_is_non_db p && hide); cbn [negb].
    { apply IH. exact Hrun. }
    destruct p as [a|a|a sub|a].
    + destruct (build_port_paragraph name (InputPort a)) as [par|e] eqn:Hpar;
        [|discriminate Hrun].
      apply build_port_paragraph_name in Hpar as Hname.
      apply IH in Hrun. rewrite Hrun.
      rewrite map_app. cbn [map]. rewrite Hname.
      rewrite <- app_assoc. reflexivity.
    + destruct (build_port_paragraph name (OutputPort a)) as [par|e] eqn:Hpar;
        [|discriminate Hrun].
      apply build_port_paragraph_name in Hpar as Hname.
      apply IH in Hrun. rewrite Hrun.
      rewrite map_app. cbn [map]. rewrite Hname.
      rewrite <- app_assoc. reflexivity.
    + destruct (match help a with
                | Some h =>
                    help_children h
                    ≫= (fun children => Return (Text " -- " :: children))
                | None => Return []
                end) as [about|e]; [|discriminate Hrun].
      destruct (recurse sub) as [doc| | |]; try discriminate Hrun.
      apply IH in Hrun. rewrite Hrun.
      rewrite map_app. cbn [map].
      rewrite <- app_assoc. reflexivity.
    + discriminate Hrun.
Qed.

(** X16: when [build_portnamespace_doctree] returns its bullet list, the
    list has one item for every port of the namespace that is not hidden
    (a port is hidden when it is [non_db] and ['hide-nondb-inputs'] is
    set), each item starts with the name of its port, and the items come in
    ascending order of these names, whatever the order of the namespace. *)
Theorem build_portnamespace_doctree_items_sorted (fuel : nat) (hide : bool)
    (ports : list (string * port)) :
  match build_portnamespace_doctree fuel hide ports with
  | Doc (Element _ _ _ items) =>
      exists names,
        map item_name items = Some <$> names
        /\ StronglySorted String.le names
        /\ Permutation names (map fst (List.filter (shown hide) ports))
  | _ => True
  end.
Proof.
  destruct fuel as [|fuel]; [exact I|]. cbn [build_portnamespace_doctree].
  destruct (doctree_items (build_portnamespace_doctree fuel hide) hide
              (sorted_items ports) []) as [items| | |] eqn:Hrun; try exact I.
  apply doctree_items_names in Hrun. cbn [map app] in Hrun.
  exists (map fst (List.filter (shown hide) (sorted_items ports))).
  split; [|split].
  - rewrite Hrun. generalize (List.filter (shown hide) (sorted_items ports)).
    intros l. induction l as [|x l IH]; cbn; [reflexivity|].
    f_equal. exact IH.
  - apply map_fst_sorted, filter_sorted, sorted_items_sorted.
  - apply Permutation_map, filter_Permutation_bool, sorted_items_perm.
Qed.

End DoctreeItems.

(** *** Hiding the ports that are not stored *)

Lemma prune_port_namespace (a : port_attributes) (sub : list (string * port)) :
  prune_port (PortNamespace a sub) = PortNamespace a (prune_ports sub).
Proof. reflexivity. Qed.

Lemma prune_ports_names (z : string * port) (l : list (string * port)) :
  In z (prune_ports l) -> exists q, In (z.1, q) l.
Proof.
  induction l as [|[name q] l IH]; cbn [prune_ports]; intros Hz; [destruct Hz|].
  destruct (_is_non_db q).
  - destruct (IH Hz) as [q' Hq']. exists q'. right. exact Hq'.
  - destruct Hz as [<-|Hz].
    + exists q. left. reflexivity.
    + destruct (IH Hz) as [q' Hq']. exists q'. right. exact Hq'.
Qed.

Lemma insert_item_least (x : string * port) (l : list (string * port)) :
  (forall z, In z l -> String.le x.1 z.1) -> insert_item x l = x :: l.
Proof.
  destruct l as [|y l]; [reflexivity|]. intros Hle. cbn [insert_item].
  rewrite (proj2 (leb_le x.1 y.1)) by (apply Hle; left; reflexivity).
  reflexivity.
Qed.

Lemma prune_ports_insert_item (x : string * port) (l : list (string * port)) :
  StronglySorted (fun a b => String.le a.1 b.1) l ->
  prune_ports (insert_item x l)
  = if _is_non_db x.2 then prune_ports l
    else insert_item (x.1, prune_port x.2) (prune_ports l).
Proof.
  destruct x as [name p]. cbn [fst snd].
  induction 1 as [|[name' p'] l Hl IH Hy].
  - cbn. destruct (_is_non_db p); reflexivity.
  - cbn [insert_item fst]. destruct (String.leb name name') eqn:Hle.
    + change (prune_ports ((name, p) :: (name', p') :: l))
        with (if _is_non_db p then prune_ports ((name', p') :: l)
              else (name, prune_port p) :: prune_ports ((name', p') :: l)).
      destruct (_is_non_db p); [reflexivity|].
      symmetry. apply insert_item_least. intros z Hz. cbn [fst].
      apply prune_ports_names in Hz as [q Hq]. apply leb_le in Hle.
      destruct Hq as [[= <- _]|Hq]; [exact Hle|].
      rewrite List.Forall_forall in Hy. specialize (Hy _ Hq). cbn in Hy.
      etransitivity; eassumption.
    + change (prune_ports ((name', p') :: insert_item (name, p) l))
        with (if _is_non_db p' then prune_ports (insert_item (name, p) l)
              else (name', prune_port p') :: prune_ports (insert_item (name, p) l)).
      rewrite IH. cbn [prune_ports].
      destruct (_is_non_db p), (_is_non_db p'); try reflexivity.
      cbn [insert_item fst]. rewrite Hle. reflexivity.
Qed.

Lemma sorted_items_prune_ports (l : list (string * port)) :
  sorted_items (prune_ports l) = prune_ports (sorted_items l).
Proof.
  induction l as [|[name p] l IH]; [reflexivity|].
  cbn [sorted_items foldr prune_ports].
  rewrite prune_ports_insert_item by apply sorted_items_sorted.
  cbn [fst snd]. destruct (_is_non_db p); [exact IH|].
  cbn [foldr]. fold (sorted_items (prune_ports l)). rewrite IH. reflexivity.
Qed.

Section DoctreeHide.

Context `{Docutils}.

Lemma doctree_items_prune
    (recurse recurse' : list (string * port) -> doc_result node)
    (items : list (string * port)) :
  (forall sub, recurse sub = recurse' (prune_ports sub)) ->
  forall result,
    doctree_items recurse true items result
    = doctree_items recurse' false (prune_ports items) result.
Proof.
  intros Hrec. induction items as [|[name p] items IH]; intros result;
    [reflexivity|].
  cbn [doctree_items prune_ports]. rewrite andb_true_r.
  destruct (_is_non_db p) eqn:Hp; [apply IH|].
  cbn [doctree_items]. rewrite andb_false_r.
  destruct p as [a|a|a sub|a].
  - cbn [prune_port].
    destruct (build_port_paragraph name (InputPort a)); [apply IH|reflexivity].
  - cbn [prune_port].
    destruct (build_port_paragraph name (OutputPort a)); [apply IH|reflexivity].
  - rewrite prune_port_namespace, <- Hrec.
    destruct (match help a with
              | Some h =>
                  help_children h
                  ≫= (fun children => Return (Text " -- " :: children))
              | None => Return []
              end); [|reflexivity].
    destruct (recurse sub); try reflexivity. apply IH.
  - reflexivity.
Qed.

(** X17: with ['hide-nondb-inputs'] set, [build_portnamespace_doctree] gives
    what it gives without the flag for the namespace from which the
    [non_db] ports have been taken out at every level: a hidden namespace is
    left out with all its ports, and a hidden port of an unknown class does
    not raise. *)
Theorem build_portnamespace_doctree_hide (fuel : nat)
    (ports : list (string * port)) :
  build_portnamespace_doctree fuel true ports
  = build_portnamespace_doctree fuel false (prune_ports ports).
Proof.
  revert ports. induction fuel as [|fuel IH]; intros ports; [reflexivity|].
  cbn [build_portnamespace_doctree].
  rewrite sorted_items_prune_ports.
  rewrite (doctree_items_prune (build_portnamespace_doctree fuel true)
             (build_portnamespace_doctree fuel false) _ IH).
  reflexivity.
Qed.

End DoctreeHide.

(** *** How the directive ends *)

Section DoctreeOutcome.

Context `{Docutils}.

Lemma reaches_unknown_cons (hide : bool) (x : string * port)
    (l : list (string * port)) :
  reaches_unknown hide (x :: l)
  <-> (shown hide x = true
       /\ ((exists a, x.2 = UnknownPort a)
           \/ (exists a sub, x.2 = PortNamespace a sub
                             /\ reaches_unknown hide sub)))
      \/ reaches_unknown hide l.
Proof.
  split.
  - intros Hreach. remember (x :: l) as ports eqn:Hports.
    destruct Hreach as [ports name a Hin Hshown|ports name a sub Hin Hshown Hsub];
      subst ports; destruct Hin as [->|Hin]; cbn [snd].
    + left. split; [exact Hshown|]. left. eauto.
    + right. eapply reaches_here; eassumption.
    + left. split; [exact Hshown|]. right. eauto.
    + right. eapply reaches_below; eassumption.
  - destruct x as [name p]. cbn [snd].
    intros [[Hshown [[a ->]|(a & sub & -> & Hsub)]]|Hreach].
    + eapply reaches_here; [left; reflexivity|exact Hshown].
    + eapply reaches_below; [left; reflexivity|exact Hshown|exact Hsub].
    + destruct Hreach as [? name' a Hin Hshown|? name' a sub Hin Hshown Hsub].
      * eapply reaches_here; [right; exact Hin|exact Hshown].
      * eapply reaches_below; [right; exact Hin|exact Hshown|exact Hsub].
Qed.

Lemma help_raises_cons (hide : bool) (e : exc) (x : string * port)
    (l : list (string * port)) :
  help_raises hide e (x :: l)
  <-> (shown hide x = true
       /\ ((exists h, parsed_help x.2 = Some h /\ help_children h = Raise e)
           \/ (exists a sub, x.2 = PortNamespace a sub
                             /\ help_raises hide e sub)))
      \/ help_raises hide e l.
Proof.
  split.
  - intros Hraises. remember (x :: l) as ports eqn:Hports.
    destruct Hraises
      as [ports name p h Hin Hshown Hparsed Hchildren
         |ports name a sub Hin Hshown Hsub];
      subst ports; destruct Hin as [->|Hin]; cbn [snd].
    + left. split; [exact Hshown|]. left. eauto.
    + right. eapply help_raises_here; eassumption.
    + left. split; [exact Hshown|]. right. eauto.
    + right. eapply help_raises_below; eassumption.
  - destruct x as [name p]. cbn [snd].
    intros [[Hshown [(h & Hparsed & Hchildren)|(a & sub & -> & Hsub)]]|Hraises].
    + eapply help_raises_here; [left; reflexivity|eassumption..].
    + eapply help_raises_below; [left; reflexivity|exact Hshown|exact Hsub].
    + destruct Hraises
        as [? name' p' h Hin Hshown Hparsed Hchildren
           |? name' a sub Hin Hshown Hsub].
      * eapply help_raises_here; [right; exact Hin|eassumption..].
      * eapply help_raises_below; [right; exact Hin|exact Hshown|exact Hsub].
Qed.

Lemma reaches_unknown_In (hide : bool) (l l' : list (string * port)) :
  (forall x, In x l -> In x l') ->
  reaches_unknown hide l -> reaches_unknown hide l'.
Proof.
  intros Hin Hreach.
  inversion Hreach as [? name a Hx Hshown|? name a sub Hx Hshown Hsub]; subst.
  - eapply reaches_here; [apply Hin; exact Hx|exact Hshown].
  - eapply reaches_below; [apply Hin; exact Hx|exact Hshown|exact Hsub].
Qed.

Lemma help_raises_In (hide : bool) (e : exc) (l l' : list (string * port)) :
  (forall x, In x l -> In x l') ->
  help_raises hide e l -> help_raises hide e l'.
Proof.
  intros Hin Hraises.
  inversion Hraises
    as [? name p h Hx Hshown Hparsed Hchildren|? name a sub Hx Hshown Hsub];
    subst.
  - eapply help_raises_here; [apply Hin; exact Hx|eassumption..].
  - eapply help_raises_below; [apply Hin; exact Hx|exact Hshown|exact Hsub].
Qed.

(** The loop ends with the bullet items when nothing it gets to stops it,
    with [NotImplementedError] only for an unknown port, with another
    exception only for a help text. *)
Lemma doctree_items_outcome
    (recurse : list (string * port) -> doc_result node) (hide : bool)
    (items : list (string * port)) :
  (forall name a sub, In (name, PortNamespace a sub) items ->
     match recurse sub with
     | Doc _ => ~ reaches_unknown hide sub /\ forall e, ~ help_raises hide e sub
     | NotImplementedError => reaches_unknown hide sub
     | Raised e => help_raises hide e sub
     | OutOfFuel => False
     end) ->
  forall result,
    match doctree_items recurse hide items result with
    | Doc _ => ~ reaches_unknown hide items /\ forall e, ~ help_raises hide e items
    | NotImplementedError => reaches_unknown hide items
    | Raised e => help_raises hide e items
    | OutOfFuel => False
    end.
Proof.
  induction items as [|[name p] items IH]; intros Hrec result.
  - cbn. split; [intros Hreach|intros e Hraises].
    + inversion Hreach as [? ? ? Hin|? ? ? ? Hin]; destruct Hin.
    + inversion Hraises as [? ? ? ? Hin|? ? ? ? Hin]; destruct Hin.
  - assert (forall name a sub, In (name, PortNamespace a sub) items ->
              match recurse sub with
              | Doc _ => ~ reaches_unknown hide sub
                         /\ forall e, ~ help_raises hide e sub
              | NotImplementedError => reaches_unknown hide sub
              | Raised e => help_raises hide e sub
              | OutOfFuel => False
              end) as Hrest
      by (intros; apply (Hrec name0 a sub); right; assumption).
    assert (forall r : doc_result (list node),
              (shown hide (name, p) = true ->
               (forall a, p <> UnknownPort a)
               /\ (forall a sub, p = PortNamespace a sub ->
                     ~ reaches_unknown hide sub
                     /\ forall e, ~ help_raises hide e sub)
               /\ (forall h e, parsed_help p = Some h ->
                     help_children h <> Raise e)) ->
              match r with
              | Doc _ => ~ reaches_unknown hide items
                         /\ forall e, ~ help_raises hide e items
              | NotImplementedError => reaches_unknown hide items
              | Raised e => help_raises hide e items
              | OutOfFuel => False
              end ->
              match r with
              | Doc _ => ~ reaches_unknown hide ((name, p) :: items)
                         /\ forall e, ~ help_raises hide e ((name, p) :: items)
              | NotImplementedError => reaches_unknown hide ((name, p) :: items)
              | Raised e => help_raises hide e ((name, p) :: items)
              | OutOfFuel => False
              end) as Hskip.
    { intros r Hhead Hr. destruct r as [items'| |e|]; [|..|exact Hr].
      - destruct Hr as [Hunknown Hhelp]. split.
        + rewrite reaches_unknown_cons. cbn [snd].
          intros [[Hshown [[a ->]|(a & sub & -> & Hsub)]]|Hreach];
            [..|exact (Hunknown Hreach)];
            destruct (Hhead Hshown) as (Hu & Hn & _).
          * exact (Hu a eq_refl).
          * exact (proj1 (Hn a sub eq_refl) Hsub).
        + intros e. rewrite help_raises_cons. cbn [snd].
          intros [[Hshown [(h & Hparsed & Hchildren)|(a & sub & -> & Hsub)]]
                 |Hraises];
            [..|exact (Hhelp e Hraises)];
            destruct (Hhead Hshown) as (_ & Hn & Hh).
          * exact (Hh h e Hparsed Hchildren).
          * exact (proj2 (Hn a sub eq_refl) e Hsub).
      - apply reaches_unknown_cons. right. exact Hr.
      - apply help_raises_cons. right. exact Hr. }
    cbn [doctree_items].
    destruct (_is_non_db p && hide) eqn:Hhidden.
    { apply Hskip; [|apply IH; exact Hrest].
      unfold shown. cbn [snd]. rewrite Hhidden. discriminate. }
    assert (shown hide (name, p) = true) as Hshown
      by (unfold shown; cbn [snd]; rewrite Hhidden; reflexivity).
    destruct p as [a|a|a sub|a].
    + pose proof (build_port_paragraph_help name (InputPort a)
                    (ex_intro _ a (or_introl eq_refl))) as Hpar.
      destruct (build_port_paragraph name (InputPort a)) as [par|e].
      * apply Hskip; [|apply IH; exact Hrest].
        intros _. split; [discriminate|]. split; [discriminate|].
        intros h e Hparsed Hchildren.
        destruct (Hpar h Hparsed) as [c Hc]. congruence.
      * destruct Hpar as (h & Hparsed & Hchildren).
        apply help_raises_cons. left. split; [exact Hshown|]. left. eauto.
    + pose proof (build_port_paragraph_help name (OutputPort a)
                    (ex_intro _ a (or_intror eq_refl))) as Hpar.
      destruct (build_port_paragraph name (OutputPort a)) as [par|e].
      * apply Hskip; [|apply IH; exact Hrest].
        intros _. split; [discriminate|]. split; [discriminate|].
        intros h e Hparsed Hchildren.
        destruct (Hpar h Hparsed) as [c Hc]. congruence.
      * destruct Hpar as (h & Hparsed & Hchildren).
        apply help_raises_cons. left. split; [exact Hshown|]. left. eauto.
    + assert (match
                match help a with
                | Some h =>
                    help_children h
                    ≫= (fun children => Return (Text " -- " :: children))
                | None => Return []
                end
              with
              | Return _ => forall h e, help a = Some h ->
                                        help_children h <> Raise e
              | Raise e => exists h, help a = Some h /\ help_children h = Raise e
              end) as Hhelp.
      { destruct (help a) as [h|]; [|discriminate].
        destruct (help_children h) as [c|e] eqn:Hc; cbn.
        - intros h' e [= <-]. congruence.
        - eauto. }
      destruct (match help a with
                | Some h =>
                    help_children h
                    ≫= (fun children => Return (Text " -- " :: children))
                | None => Return []
                end) as [about|e].
      * pose proof (Hrec name a sub (or_introl eq_refl)) as Hsub.
        destruct (recurse sub) as [doc| |e|].
        -- apply Hskip; [|apply IH; exact Hrest].
           intros _. split; [discriminate|]. split; [|exact Hhelp].
           intros a' sub' [= <- <-]. exact Hsub.
        -- apply reaches_unknown_cons. left. split; [exact Hshown|].
           right. eauto.
        -- apply help_raises_cons. left. split; [exact Hshown|].
           right. eauto.
        -- exact Hsub.
      * destruct Hhelp as (h & Hparsed & Hchildren).
        apply help_raises_cons. left. split; [exact Hshown|]. left. eauto.
    + apply reaches_unknown_cons. left. split; [exact Hshown|]. left. eauto.
Qed.

Lemma build_portnamespace_doctree_outcome (fuel : nat) :
  forall (hide : bool) (ports : list (string * port)),
    ports_depth ports < fuel ->
    match build_portnamespace_doctree fuel hide ports with
    | Doc list =>
        (exists items, list = Element "bullet_list" None [("bullet", "*")] items)
        /\ ~ reaches_unknown hide ports
        /\ forall e, ~ help_raises hide e ports
    | NotImplementedError => reaches_unknown hide ports
    | Raised e => help_raises hide e ports
    | OutOfFuel => False
    end.
Proof.
  induction fuel as [|fuel IH]; intros hide ports Hfuel; [lia|].
  assert (forall name a sub,
            In (name, PortNamespace a sub) (sorted_items ports) ->
            match build_portnamespace_doctree fuel hide sub with
            | Doc _ => ~ reaches_unknown hide sub
                       /\ forall e, ~ help_raises hide e sub
            | NotImplementedError => reaches_unknown hide sub
            | Raised e => help_raises hide e sub
            | OutOfFuel => False
            end) as Hrec.
  { intros name a sub Hin. apply (proj1 (In_sorted_items _ _)) in Hin.
    apply ports_depth_In in Hin. rewrite port_depth_namespace in Hin.
    specialize (IH hide sub ltac:(lia)).
    destruct (build_portnamespace_doctree fuel hide sub); [|exact IH..].
    split; apply IH. }
  pose proof (doctree_items_outcome (build_portnamespace_doctree fuel hide) hide
                (sorted_items ports) Hrec []) as Hitems.
  cbn [build_portnamespace_doctree].
  destruct (doctree_items (build_portnamespace_doctree fuel hide) hide
              (sorted_items ports) []) as [items| |e|].
  - destruct Hitems as [Hunknown Hhelp]. split; [eauto|]. split.
    + intros Hreach. apply Hunknown.
      apply (reaches_unknown_In hide ports); [|exact Hreach].
      intros x. apply In_sorted_items.
    + intros e Hraises. apply (Hhelp e).
      apply (help_raises_In hide e ports); [|exact Hraises].
      intros x. apply In_sorted_items.
  - apply (reaches_unknown_In hide (sorted_items ports)); [|exact Hitems].
    intros x. apply In_sorted_items.
  - apply (help_raises_In hide e (sorted_items ports)); [|exact Hitems].
    intros x. apply In_sorted_items.
  - exact Hitems.
Qed.

(** X15: [build_portnamespace_doctree] comes to an end on every namespace:
    followed one level further than the namespaces nest, it is never cut
    short, and following it further changes nothing.  It ends with the
    bullet list, with [NotImplementedError], or with the exception of a help
    text it got to and could not read (the [IndexError] of a document
    without a node, or what [publish_doctree] raised), and in no other
    way. *)
Theorem build_portnamespace_doctree_terminates (hide : bool)
    (ports : list (string * port)) (fuel : nat) :
  ports_depth ports < fuel ->
  build_portnamespace_doctree fuel hide ports
  = build_portnamespace_doctree (S (ports_depth ports)) hide ports
  /\ ((exists items, build_portnamespace_doctree fuel hide ports
                     = Doc (Element "bullet_list" None [("bullet", "*")] items))
      \/ build_portnamespace_doctree fuel hide ports = NotImplementedError
      \/ (exists e, build_portnamespace_doctree fuel hide ports = Raised e
                    /\ help_raises hide e ports
                    /\ (e = Exc IndexError "list index out of range"
                        \/ exists h, publish_doctree h = Raise e))).
Proof.
  intros Hfuel. split.
  - apply (build_portnamespace_doctree_fuel fuel (S (ports_depth ports)) hide
             ports Hfuel (Nat.lt_succ_diag_r _)).
  - pose proof (build_portnamespace_doctree_outcome fuel hide ports Hfuel) as Hout.
    destruct (build_portnamespace_doctree fuel hide ports) as [list| |e|].
    + destruct Hout as [[items ->] _]. eauto.
    + auto.
    + right. right. exists e. split; [reflexivity|]. split; [exact Hout|].
      clear -Hout. induction Hout as [? name p h _ _ _ Hchildren|]; [|assumption].
      unfold help_children in Hchildren.
      destruct (publish_doctree h) as [[|first document]|e'] eqn:Hdoc;
        cbn in Hchildren; [|discriminate Hchildren|].
      * injection Hchildren as <-. left. reflexivity.
      * injection Hchildren as <-. right. eauto.
    + destruct Hout.
Qed.

(** X18: followed as deep as the namespaces nest,
    [build_portnamespace_doctree] returns the bullet list exactly when, among
    the ports it shows, at the top or in a shown namespace below, there is
    neither a port of a class it does not know nor a help text it cannot
    read.  It raises [NotImplementedError] only for a port of an unknown
    class; and when every help text can be read, it raises
    [NotImplementedError] exactly when there is such a port, and returns
    the bullet list otherwise. *)
Theorem build_portnamespace_doctree_not_implemented (fuel : nat) (hide : bool)
    (ports : list (string * port)) :
  ports_depth ports < fuel ->
  ((exists items, build_portnamespace_doctree fuel hide ports
                  = Doc (Element "bullet_list" None [("bullet", "*")] items))
   <-> ~ reaches_unknown hide ports /\ forall e, ~ help_raises hide e ports)
  /\ (build_portnamespace_doctree fuel hide ports = NotImplementedError ->
      reaches_unknown hide ports)
  /\ ((forall e, ~ help_raises hide e ports) ->
      (build_portnamespace_doctree fuel hide ports = NotImplementedError
       <-> reaches_unknown hide ports)
      /\ (~ reaches_unknown hide ports ->
          exists items,
            build_portnamespace_doctree fuel hide ports
            = Doc (Element "bullet_list" None [("bullet", "*")] items))).
Proof.
  intros Hfuel.
  pose proof (build_portnamespace_doctree_outcome fuel hide ports Hfuel) as Hout.
  destruct (build_portnamespace_doctree fuel hide ports) as [list| |e|].
  - destruct Hout as ([items ->] & Hunknown & Hhelp).
    split; [split; [auto|eauto]|]. split; [discriminate|].
    intros _. split; [split; [discriminate|intros Hreach; destruct (Hunknown Hreach)]|].
    eauto.
  - split; [split; [intros [items [=]]|intros [Hunknown _]; destruct (Hunknown Hout)]|].
    split; [auto|]. intros _. split; [split; auto|].
    intros Hunknown. destruct (Hunknown Hout).
  - split; [split; [intros [items [=]]|intros [_ Hhelp]; destruct (Hhelp e Hout)]|].
    split; [discriminate|]. intros Hhelp. destruct (Hhelp e Hout).
  - destruct Hout.
Qed.

End DoctreeOutcome.

Lemma build_portnamespace_doctree_terminates_witness :
  @build_portnamespace_doctree sample_docutils 5 true sample_namespace
  = @build_portnamespace_doctree sample_docutils 2 true sample_namespace.
Proof.
  apply (@build_portnamespace_doctree_terminates sample_docutils true
           sample_namespace 5).
  vm_compute. lia.
Defined.

(** Every help text of the sample namespace can be read. *)
Lemma sample_namespace_helps (hide : bool) (e : exc) :
  ~ @help_raises sample_docutils hide e sample_namespace.
Proof.
  unfold sample_namespace.
  rewrite !help_raises_cons. cbn [snd parsed_help sample_port_attributes help].
  intros Hraises.
  repeat match goal with
         | Hr : _ \/ _ |- _ => destruct Hr as [Hr|Hr]
         | Hr : _ /\ _ |- _ => destruct Hr as [? Hr]
         | Hr : exists _, _ |- _ => destruct Hr as [? Hr]
         | Hr : _ = Some ?h |- _ =>
             is_var h; vm_compute in Hr;
             first [discriminate Hr | injection Hr as Hr; subst h]
         | Hr : None = Some _ |- _ => discriminate Hr
         | Hr : help_children _ = Raise _ |- _ => vm_compute in Hr; discriminate Hr
         | Hr : InputPort _ = PortNamespace _ _ |- _ => discriminate Hr
         | Hr : UnknownPort _ = PortNamespace _ _ |- _ => discriminate Hr
         | Hr : PortNamespace _ _ = PortNamespace _ _ |- _ =>
             injection Hr as <- <-
         | Hr : help_raises _ _ (_ :: _) |- _ =>
             rewrite help_raises_cons in Hr; cbn [snd parsed_help] in Hr
         | Hr : help_raises _ _ [] |- _ =>
             inversion Hr as [? ? ? ? Hin|? ? ? ? Hin]; destruct Hin
         end.
Qed.

Lemma build_portnamespace_doctree_not_implemented_witness :
  @build_portnamespace_doctree sample_docutils 2 false sample_namespace
  = NotImplementedError
  <-> reaches_unknown false sample_namespace.
Proof.
  destruct (@build_portnamespace_doctree_not_implemented sample_docutils 2 false
              sample_namespace) as (_ & _ & Hparsed).
  - vm_compute. lia.
  - apply Hparsed. apply sample_namespace_helps.
Defined.

(** ** The restart script [test_neb_restart.py] *)

Section NebRestartFacts.

Context `{IntBuiltin} `{NebShell}.

Lemma py_int_VStr (s : string) (handler : result Z) :
  try_except (py_int (VStr s)) ValueError handler
  = match int_literal s with
    | Some n => Return n
    | None => handler
    end.
Proof. cbn. destruct (int_literal s); reflexivity. Qed.

(** The script, one call or test at a time. *)
Ltac script_step :=
  match goal with
  | |- context [match ?x with _ => _ end] =>
      lazymatch x with
      | context [match _ with _ => _ end] => fail
      | _ => destruct x eqn:?
      end
  end;
  cbv beta iota zeta.

Ltac script_cases :=
  unfold test_neb_restart;
  cbv beta iota zeta
    delta [mbind mret script_bind script_ret does reads prints raises];
  repeat (rewrite ?py_int_VStr; script_step);
  repeat match goal with
         | Heq : String.eqb _ _ = true |- _ => apply String.eqb_eq in Heq
         | Heq : String.eqb _ _ = false |- _ => apply String.eqb_neq in Heq
         end;
  subst; cbn [fst snd].

Ltac no_such_event :=
  rewrite ?in_app_iff; cbn [In];
  intuition (try discriminate; try congruence).

Ltac such_event :=
  cbn [app In]; repeat (first [left; reflexivity | right]).


(** X20: called without [--send] or [--dont-send] as first parameter, or
    without a second parameter, the script prints a message to standard
    error and nothing to standard output, leaves with status 1, and has not
    asked the database for any calculation. *)
Theorem test_neb_restart_bad_command_line (argv : list string) :
  (argv !! 1 <> Some "--send" /\ argv !! 1 <> Some "--dont-send")
  \/ argv !! 2 = None ->
  (test_neb_restart argv).2 = Raise (Exc SystemExit "1")
  /\ (exists line, In (Stderr line) (test_neb_restart argv).1)
  /\ (forall line, ~ In (Stdout line) (test_neb_restart argv).1)
  /\ (forall pk, ~ In (GetSubclassFromPk pk) (test_neb_restart argv).1).
Proof.
  intros Hbad.
  script_cases;
    try (destruct Hbad as [[Hs Hd]|Hnone]; congruence);
    (split; [reflexivity|]; split; [eexists; such_event|];
     split; intros; no_such_event).
Qed.


End NebRestartFacts.

Lemma test_neb_restart_bad_command_line_witness :
  (@test_neb_restart sample_int_builtin sample_neb_shell
     ["test_neb_restart.py"; "--send"]).2
  = Raise (Exc SystemExit "1").
Proof.
  apply (@test_neb_restart_bad_command_line sample_int_builtin sample_neb_shell
           ["test_neb_restart.py"; "--send"]).
  right. reflexivity.
Defined.



(** ** [setup_db]: failing before any request *)

(** X22: without an ['api_key'] keyword, or with [api_key=None] and no
    [PMG_MAPI_KEY] in the environment, [setup_db] raises ([KeyError] and
    [ValueError] respectively), leaves the object as it was, and has not
    asked the remote service: the outcome is the same for every service. *)
Theorem setup_db_fails_before_request `{Builtins}
    (service service' : MaterialsProject) (environ : gmap string string)
    (kwargs : gmap string pyval) (self : MatProjImporter) :
  kwargs !! "api_key" = None
  \/ (kwargs !! "api_key" = Some VNone /\ environ !! "PMG_MAPI_KEY" = None) ->
  (exists e, @setup_db _ service environ kwargs self = (self, Raise e)
             /\ (kwargs !! "api_key" = None -> exc_type e = KeyError)
             /\ (kwargs !! "api_key" = Some VNone -> exc_type e = ValueError))
  /\ @setup_db _ service environ kwargs self
     = @setup_db _ service' environ kwargs self.
Proof.
  intros [Hk | [Hk He]]; unfold setup_db, subscript; rewrite Hk.
  - split; [|reflexivity]. eexists. split; [reflexivity|].
    split; [reflexivity|discriminate].
  - cbn [is_None]. rewrite He. cbn. split; [|reflexivity].
    eexists. split; [reflexivity|]. split; [discriminate|reflexivity].
Qed.

Lemma setup_db_fails_before_request_witness :
  @setup_db sample_builtins sample_materials_project ∅
    {[ "api_key" := VNone ]} {| _api_key := None |}
  = @setup_db sample_builtins offline_materials_project ∅
      {[ "api_key" := VNone ]} {| _api_key := None |}.
Proof.
  apply (@setup_db_fails_before_request sample_builtins
           sample_materials_project offline_materials_project).
  right. split; reflexivity.
Defined.

(** ** [delete_temporary_file] *)


